(** * The autograding test runner (src/runner.ts)

    A shallow embedding of [compareOutput], [executeTest], [runTest] and
    [runAll], together with the parts of the JavaScript run time they call:
    string primitives, truthiness, [child_process.execSync], [fs] and the
    clock.  Running a shell command cannot be computed inside Rocq, so the
    behaviour of subprocesses, the regular-expression engine and the uuid
    generator are supplied by a [Host] record; every theorem below is stated
    for an arbitrary host.

    Conventions.
    - JavaScript strings are Rocq strings; [null]/[undefined] are [None].
    - Numbers: points are integers ([Z]); the timeout is a rational number of
      minutes ([Q]), so that fractions such as [0.01] are available and the
      arithmetic is exact; clock readings are integer milliseconds.
    - Every value thrown by the calls made here ([execSync], [readFileSync],
      [unlinkSync], [new RegExp], [throw new Error]) is an [Error] object, so
      exceptions carry a [JsError] and the [instanceof Error] tests of the
      two [catch] blocks always take their first arm.
    - The file system is a finite map from paths to contents: reading a path
      fails exactly when no file is there.  [mkdirSync] and
      [setCheckRunOutput] (module [./output]) are taken to succeed.
    - The clock moves while a subprocess runs, by the wall-clock time the
      host reports for it.
    - Every call to the outside is recorded in a trace, so that "was never
      attempted" can be stated.
    - [console.log] output is not part of any report and is left out. *)

From Stdlib Require Import ZArith QArith Lqa String Ascii List Lia ZifyNat.
From stdpp Require Import base option gmap strings list pretty.

Local Open Scope string_scope.

(** ** JavaScript primitives *)

Module Js.

(** [String.prototype.includes]: [sub] occurs in [s] at some offset. *)
Fixpoint includes (s sub : string) : bool :=
  String.prefix sub s ||
  match s with
  | EmptyString => false
  | String _ s' => includes s' sub
  end.

(** White space removed by [trim] (the ASCII part of the ECMAScript set:
    TAB, LF, VT, FF, CR and SPACE). *)
Definition is_space (c : ascii) : bool :=
  let n := nat_of_ascii c in
  ((9 <=? n)%nat && (n <=? 13)%nat) || (n =? 32)%nat.

Fixpoint trimStart (s : string) : string :=
  match s with
  | EmptyString => EmptyString
  | String c s' => if is_space c then trimStart s' else s
  end.

Fixpoint trimEnd (s : string) : string :=
  match s with
  | EmptyString => EmptyString
  | String c s' =>
      match trimEnd s' with
      | EmptyString => if is_space c then EmptyString else String c EmptyString
      | r => String c r
      end
  end.

Definition trim (s : string) : string := trimEnd (trimStart s).

(** Truthiness of an optional string: [undefined], [null] and [''] are falsy. *)
Definition truthy (s : option string) : bool :=
  match s with
  | Some s => negb (String.eqb s "")
  | None => false
  end.

(** Truthiness of an optional number: [undefined] and [0] are falsy. *)
Definition truthy_num (n : option Z) : bool :=
  match n with
  | Some n => negb (Z.eqb n 0)
  | None => false
  end.

(** [s || ''] *)
Definition or_empty (s : option string) : string :=
  if truthy s then default "" s else "".

(** [s || null] *)
Definition or_null (s : option string) : option string :=
  if truthy s then s else None.

(** [n || null] *)
Definition num_or_null (n : option Z) : option Z :=
  if truthy_num n then n else None.

(** [n || 0] *)
Definition num_or_zero (n : option Z) : Z :=
  if truthy_num n then default 0%Z n else 0%Z.

(** A value spliced into a template literal: [undefined] prints as such. *)
Definition show (s : option string) : string :=
  match s with
  | Some s => s
  | None => "undefined"
  end.

End Js.

(** ** Data model *)

(** The strings ['pass'], ['fail'] and ['error'] held by [status]. *)
Inductive Status := pass | fail | error.

Global Instance Status_eq_dec : EqDecision Status.
Proof. solve_decision. Defined.

(** [interface Test].  [comparison] is kept as the string that arrives at run
    time, so that the [default] arm of [compareOutput] can be reached. *)
Module Test.
Record t := mk {
  name : string;
  setup : string;
  run : string;
  input : option string;
  output : option string;
  timeout : Q;
  points : option Z;
  comparison : string;
}.
End Test.

(** The object returned by [executeTest]: two optional fields. *)
Module Outcome.
Record t := mk {
  output : option string;
  error : option string;
}.
End Outcome.

(** The object returned by [runTest].  [execution_time] holds the elapsed
    milliseconds that the source prints as seconds with an [s] suffix;
    [None] is the number [0] written when no run was timed. *)
Module TestResult.
Record t := mk {
  name : string;
  status : Status;
  err_message : option string;
  content : option string;
  test_code : string;
  filename : string;
  line_no : Z;
  execution_time : option Z;
  score : option Z;
}.
End TestResult.

(** The [results] object built at the end of [runAll]. *)
Module SuiteReport.
Record t := mk {
  version : Z;
  status : Status;
  max_score : Z;
  tests : list TestResult.t;
}.
End SuiteReport.

(** ** The host: subprocesses, files, clock *)

(** One call of [execSync]: the command and the options passed with it.
    [stdin] is [None] for [stdio: 'ignore']; [feedback_env] is the value of
    [AUTOGRADING_FEEDBACK] when the environment carries it. *)
Record Spawn := mkSpawn {
  command : string;
  spawn_cwd : string;
  stdin : option string;
  timeout_ms : Q;
  feedback_env : option string;
}.

(** How a subprocess ended, as [execSync] sees it.  For a non-zero exit
    status the message is [Command failed: ] followed by the command line
    and, on a new line, by what the command wrote to its standard error. *)
Inductive Exit :=
  | Completed (stdout : string)   (* status 0 *)
  | TimedOut                      (* killed when the timeout expired *)
  | Failed (msg : string).        (* any other failure, with its message *)

(** What a subprocess did: how it ended, the files it left behind and the
    wall-clock time it took. *)
Record Process := mkProcess {
  exit : Exit;
  files_after : gmap string string;
  elapsed : Z;
}.

(** Everything the runner produces besides its return value. *)
Inductive Event :=
  | Spawned (req : Spawn)
  | MkdirP (path : string)
  | ReadFile (path : string)
  | ExistsFile (path : string)
  | Unlink (path : string)
  | SetFailed (msg : string)                   (* core.setFailed *)
  | SetOutputPoints (accumulated available : Z)  (* core.setOutput('Points', `a/b`) *)
  | CheckRunOutput (accumulated available : Z)   (* setCheckRunOutput(`Points a/b`) *)
  | SetOutputResult (report : SuiteReport.t).  (* core.setOutput('result', base64 of the JSON text) *)

(** The machine the runner executes on.  [trace] lists the events so far,
    newest first. *)
Record World := mkWorld {
  files : gmap string string;
  now : Z;
  uuids_drawn : nat;
  trace : list Event;
}.

(** The parts of the environment that are not computed here. *)
Record Host := mkHost {
  (** the shell: what a spawned command does on given files at a given time *)
  sh : Spawn -> gmap string string -> Z -> Process;
  (** the n-th identifier handed out by [uuidv4()] *)
  uuidv4 : nat -> string;
  (** [process.env['RUNNER_TEMP']] *)
  RUNNER_TEMP : option string;
  (** compiled regular expressions *)
  RegExp : Type;
  (** [new RegExp(source)]: the compiled pattern, or the SyntaxError raised *)
  RegExp_new : string -> string + RegExp;
  (** the pattern matches a stretch of the input that starts at the offset *)
  RegExp_match_at : RegExp -> string -> nat -> bool;
}.

(** JavaScript [Error] objects; only [message] is ever read. *)
Record JsError := mkError { message : string }.

(** Result of evaluating a statement that may throw. *)
Inductive Completion (A : Type) :=
  | Normal (a : A)
  | Throw (e : JsError).
Arguments Normal {A} a.
Arguments Throw {A} e.

(** Programs over a state [S] that may throw; a throw keeps the state
    reached so far, as assignments made before it are not undone. *)
Definition Prog (S A : Type) : Type := S -> Completion A * S.

Definition ret {S A} (a : A) : Prog S A := fun s => (Normal a, s).

Definition bind {S A B} (m : Prog S A) (k : A -> Prog S B) : Prog S B :=
  fun s =>
    match m s with
    | (Normal a, s') => k a s'
    | (Throw e, s') => (Throw e, s')
    end.

(** [try { body } catch (e) { handler e }] *)
Definition try_catch {S A} (body : Prog S A) (handler : JsError -> Prog S A) : Prog S A :=
  fun s =>
    match body s with
    | (Normal a, s') => (Normal a, s')
    | (Throw e, s') => handler e s'
    end.

Definition modify {S} (f : S -> S) : Prog S unit := fun s => (Normal tt, f s).

Declare Scope prog_scope.
Delimit Scope prog_scope with prog.
Notation "x <- m ;; k" := (bind m (fun x => k))
  (at level 100, m at next level, right associativity) : prog_scope.
Notation "m ;;; k" := (bind m (fun _ => k))
  (at level 100, right associativity) : prog_scope.
Local Open Scope prog_scope.

(** Run a program on the world inside a larger state. *)
Definition on_world {V A} (m : Prog World A) : Prog (V * World) A :=
  fun s =>
    let '(r, w') := m (snd s) in (r, (fst s, w')).

(** Change the local variables of a larger state. *)
Definition assign {V} (f : V -> V) : Prog (V * World) unit :=
  modify (fun s => (f (fst s), snd s)).

Definition locals {V} : Prog (V * World) V :=
  fun s => (Normal (fst s), s).

Definition record (e : Event) (w : World) : World :=
  {| files := files w; now := now w; uuids_drawn := uuids_drawn w;
     trace := e :: trace w |}.

Definition emit (e : Event) : Prog World unit := modify (record e).

(** The variables declared at the top of [runTest] (lines 108-113). *)
Module Vars.
Record t := mk {
  timeout : Q;
  status : Status;
  err_message : option string;
  score : option Z;
  feedback : option string;
  execution_time : option Z;
}.
Definition set_timeout (x : Q) (v : t) : t :=
  mk x (status v) (err_message v) (score v) (feedback v) (execution_time v).
Definition set_status (x : Status) (v : t) : t :=
  mk (timeout v) x (err_message v) (score v) (feedback v) (execution_time v).
Definition set_err_message (x : option string) (v : t) : t :=
  mk (timeout v) (status v) x (score v) (feedback v) (execution_time v).
Definition set_score (x : option Z) (v : t) : t :=
  mk (timeout v) (status v) (err_message v) x (feedback v) (execution_time v).
Definition set_feedback (x : option string) (v : t) : t :=
  mk (timeout v) (status v) (err_message v) (score v) x (execution_time v).
Definition set_execution_time (x : option Z) (v : t) : t :=
  mk (timeout v) (status v) (err_message v) (score v) (feedback v) x.
End Vars.

(** The variables declared at the top of [runAll] (lines 185-189). *)
Module Totals.
Record t := mk {
  accumulatedPoints : Z;
  availablePoints : Z;
  hasPoints : bool;
  status : Status;
  testResults : list TestResult.t;
}.
Definition declare (p : Z) (v : t) : t :=
  mk (accumulatedPoints v) (availablePoints v + p)%Z true (status v) (testResults v).
Definition push (r : TestResult.t) (v : t) : t :=
  mk (accumulatedPoints v) (availablePoints v) (hasPoints v) (status v) (testResults v ++ [r]).
Definition earn (p : Z) (v : t) : t :=
  mk (accumulatedPoints v + p)%Z (availablePoints v) (hasPoints v) (status v) (testResults v).
Definition set_status (x : Status) (v : t) : t :=
  mk (accumulatedPoints v) (availablePoints v) (hasPoints v) x (testResults v).
End Totals.

Section Runner.

Context (host : Host).

(** [new Date().getTime()] *)
Definition getTime : Prog World Z := fun w => (Normal (now w), w).

(** The message of the error [execSync] throws when the child was killed on
    timeout: [spawnSync /bin/sh ETIMEDOUT]. *)
Definition ETIMEDOUT_message : string := "spawnSync /bin/sh ETIMEDOUT".

Definition exit_result (e : Exit) : Completion string :=
  match e with
  | Completed stdout => Normal stdout
  | TimedOut => Throw (mkError ETIMEDOUT_message)
  | Failed msg => Throw (mkError msg)
  end.

(** [execSync(command, options)]: runs the command to its end, then returns
    its standard output or throws. *)
Definition execSync (req : Spawn) : Prog World string :=
  fun w =>
    let p := sh host req (files w) (now w) in
    (exit_result (exit p),
     {| files := files_after p; now := (now w + elapsed p)%Z;
        uuids_drawn := uuids_drawn w; trace := Spawned req :: trace w |}).

Definition ENOENT_message (syscall path : string) : string :=
  "ENOENT: no such file or directory, " +:+ syscall +:+ " '" +:+ path +:+ "'".

(** [fs.readFileSync(path, 'utf8')] *)
Definition readFileSync (path : string) : Prog World string :=
  fun w =>
    match files w !! path with
    | Some text => (Normal text, record (ReadFile path) w)
    | None => (Throw (mkError (ENOENT_message "open" path)), record (ReadFile path) w)
    end.

(** [fs.existsSync(path)] *)
Definition existsSync (path : string) : Prog World bool :=
  fun w => (Normal (bool_decide (is_Some (files w !! path))), record (ExistsFile path) w).

(** [fs.unlinkSync(path)] *)
Definition unlinkSync (path : string) : Prog World unit :=
  fun w =>
    match files w !! path with
    | Some _ =>
        (Normal tt,
         {| files := delete path (files w); now := now w;
            uuids_drawn := uuids_drawn w; trace := Unlink path :: trace w |})
    | None => (Throw (mkError (ENOENT_message "unlink" path)), record (Unlink path) w)
    end.

(** [uuidv4()] *)
Definition draw_uuid : Prog World string :=
  fun w =>
    (Normal (uuidv4 host (uuids_drawn w)),
     {| files := files w; now := now w; uuids_drawn := S (uuids_drawn w);
        trace := trace w |}).

(** [path.join(dir, name)] for a directory and a plain file name. *)
Definition path_join (dir name : string) : string := dir +:+ "/" +:+ name.

(** [createFeedbackDir] (lines 37-43). *)
Definition createFeedbackDir : Prog World string :=
  let tmpDir := if Js.truthy (RUNNER_TEMP host) then default "" (RUNNER_TEMP host) else "/tmp" in
  let feedbackDir := path_join tmpDir "_autograding_feedback" in
  emit (MkdirP feedbackDir) ;;;
  ret feedbackDir.

(** [regex.test(output)] for a pattern without flags: the match is tried at
    every offset of the input, from the first to the one past the end. *)
Definition RegExp_test (r : RegExp host) (s : string) : bool :=
  existsb (RegExp_match_at host r s) (seq 0 (S (String.length s))).

(** [compareOutput] (lines 46-59). *)
Definition compareOutput (output expected method : string) : Completion bool :=
  if String.eqb method "exact" then
    Normal (String.eqb output expected)
  else if String.eqb method "included" then
    Normal (Js.includes output expected)
  else if String.eqb method "regex" then
    match RegExp_new host expected with
    | inr regex => Normal (RegExp_test regex output)
    | inl syntax_error => Throw (mkError syntax_error)
    end
  else
    Throw (mkError ("Invalid comparison method: " +:+ method)).

(** [executeTest] (lines 75-104). *)
Definition executeTest (command input : string) (timeout : Q) (cwd feedbackFile : string)
  : Prog World Outcome.t :=
  try_catch
    (output <- execSync {| command := command; spawn_cwd := cwd; stdin := Some input;
                           timeout_ms := timeout; feedback_env := Some feedbackFile |} ;;
     ret {| Outcome.output := Some (Js.trim output); Outcome.error := None |})
    (fun e =>
       let message :=
         if Js.includes (message e) "ETIMEDOUT"
         then "Command was killed due to timeout"
         else message e in
       ret {| Outcome.output := None; Outcome.error := Some message |}).

(** A block with its own [let] variables. *)
Definition with_locals {V A} (init : V) (body : Prog (V * World) A) : Prog World A :=
  fun w =>
    let '(r, s) := body (init, w) in (r, snd s).

(** A pure computation that may throw, as a statement. *)
Definition eval {S A} (c : Completion A) : Prog S A := fun s => (c, s).

(** [(test.points) ? 0 : null] *)
Definition zero_if_pointed (test : Test.t) : option Z :=
  if Js.truthy_num (Test.points test) then Some 0%Z else None.

(** Lines 117-129: the optional setup command, charged to the budget. *)
Definition setup_step (test : Test.t) (cwd : string) : Prog (Vars.t * World) unit :=
  if Js.truthy (Some (Test.setup test)) then
    startSetup <- on_world getTime ;;
    v <- locals ;;
    _ <- on_world (execSync {| command := Test.setup test; spawn_cwd := cwd; stdin := None;
                               timeout_ms := Vars.timeout v; feedback_env := None |}) ;;
    endSetup <- on_world getTime ;;
    assign (fun v => Vars.set_timeout (Vars.timeout v - inject_Z (endSetup - startSetup))%Q v)
  else ret tt.

(** Lines 134-150: the run command, its timing and the comparison. *)
Definition run_step (test : Test.t) (cwd feedbackPath : string) : Prog (Vars.t * World) unit :=
  startTime <- on_world getTime ;;
  v <- locals ;;
  r <- on_world (executeTest (Test.run test) (Js.or_empty (Test.input test))
                             (Vars.timeout v) cwd feedbackPath) ;;
  endTime <- on_world getTime ;;
  assign (Vars.set_execution_time (Some (endTime - startTime)%Z)) ;;;
  if Js.truthy (Outcome.error r) then
    assign (Vars.set_status error) ;;;
    assign (Vars.set_err_message (Outcome.error r)) ;;;
    assign (Vars.set_score (zero_if_pointed test))
  else
    same <- eval (compareOutput (Js.or_empty (Outcome.output r))
                                (Js.or_empty (Test.output test))
                                (Test.comparison test)) ;;
    if negb same then
      assign (Vars.set_status fail) ;;;
      assign (Vars.set_err_message
                (Some ("Output does not match expected. Got: " +:+ Js.show (Outcome.output r)))) ;;;
      assign (Vars.set_score (zero_if_pointed test))
    else ret tt.

(** Lines 152-158: the feedback file is read, then removed. *)
Definition feedback_step (feedbackPath : string) : Prog (Vars.t * World) unit :=
  text <- on_world (readFileSync feedbackPath) ;;
  assign (Vars.set_feedback (Some text)) ;;;
  present <- on_world (existsSync feedbackPath) ;;
  if present then on_world (unlinkSync feedbackPath) else ret tt.

(** The [try] block of [runTest] (lines 115-158). *)
Definition runTest_try (test : Test.t) (cwd feedbackDir : string) : Prog (Vars.t * World) unit :=
  setup_step test cwd ;;;
  uuid <- on_world draw_uuid ;;
  let feedbackPath := path_join feedbackDir ("grading_feedback_" +:+ uuid +:+ ".md") in
  run_step test cwd feedbackPath ;;;
  feedback_step feedbackPath.

(** The [catch] block of [runTest] (lines 159-168). *)
Definition runTest_catch (e : JsError) : Prog (Vars.t * World) unit :=
  assign (Vars.set_status error) ;;;
  assign (Vars.set_err_message (Some (message e))).

(** The initial values of the variables of [runTest] (lines 108-113). *)
Definition Vars_init (test : Test.t) : Vars.t :=
  {| Vars.timeout := (Test.timeout test * 60 * 1000)%Q;
     Vars.status := pass;
     Vars.err_message := None;
     Vars.score := Js.num_or_null (Test.points test);
     Vars.feedback := None;
     Vars.execution_time := None |}.

(** The object returned by [runTest] (lines 171-181). *)
Definition result_of (test : Test.t) (v : Vars.t) : TestResult.t :=
  {| TestResult.name := Test.name test;
     TestResult.status := Vars.status v;
     TestResult.err_message := Vars.err_message v;
     TestResult.content := Js.or_null (Vars.feedback v);
     TestResult.test_code := Test.run test +:+ " <stdin>" +:+ Js.or_empty (Test.input test);
     TestResult.filename := "";
     TestResult.line_no := 0%Z;
     TestResult.execution_time := Vars.execution_time v;
     TestResult.score := Vars.score v |}.

(** [runTest] (lines 107-182). *)
Definition runTest (test : Test.t) (cwd feedbackDir : string) : Prog World TestResult.t :=
  with_locals (Vars_init test)
    (try_catch (runTest_try test cwd feedbackDir) runTest_catch ;;;
     v <- locals ;;
     ret (result_of test v)).

(** [for (const x of items) { body x }] *)
Fixpoint for_of {S A} (items : list A) (body : A -> Prog S unit) : Prog S unit :=
  match items with
  | [] => ret tt
  | x :: rest => body x ;;; for_of rest body
  end.

(** The body of the loop of [runAll] (lines 196-220). *)
Definition runAll_body (cwd feedbackDir : string) (test : Test.t) : Prog (Totals.t * World) unit :=
  (if Js.truthy_num (Test.points test)
   then assign (Totals.declare (default 0%Z (Test.points test)))
   else ret tt) ;;;
  result <- on_world (runTest test cwd feedbackDir) ;;
  assign (Totals.push result) ;;;
  (if Js.truthy_num (Test.points test)
   then assign (Totals.earn (Js.num_or_zero (TestResult.score result)))
   else ret tt) ;;;
  if bool_decide (TestResult.status result = pass) then ret tt
  else
    on_world (emit (SetFailed ("Failed to run test '" +:+ Test.name test +:+ "'"))) ;;;
    assign (Totals.set_status error).

Definition Totals_init : Totals.t :=
  {| Totals.accumulatedPoints := 0; Totals.availablePoints := 0; Totals.hasPoints := false;
     Totals.status := pass; Totals.testResults := [] |}.

(** The report assembled from the totals (lines 243-248). *)
Definition results_of (v : Totals.t) : SuiteReport.t :=
  {| SuiteReport.version := 0;
     SuiteReport.status := Totals.status v;
     SuiteReport.max_score := Totals.availablePoints v;
     SuiteReport.tests := Totals.testResults v |}.

(** The loop of [runAll] with what precedes it (lines 185-221). *)
Definition runAll_loop (tests : list Test.t) (cwd : string) : Prog (Totals.t * World) unit :=
  feedbackDir <- on_world createFeedbackDir ;;
  for_of tests (runAll_body cwd feedbackDir).

(** [runAll] (lines 184-250). *)
Definition runAll (tests : list Test.t) (cwd : string) : Prog World unit :=
  with_locals Totals_init
    (runAll_loop tests cwd ;;;
     v <- locals ;;
     (if Totals.hasPoints v then
        on_world (emit (SetOutputPoints (Totals.accumulatedPoints v) (Totals.availablePoints v))) ;;;
        on_world (emit (CheckRunOutput (Totals.accumulatedPoints v) (Totals.availablePoints v)))
      else ret tt) ;;;
     on_world (emit (SetOutputResult (results_of v)))).

End Runner.

(** ** Vocabulary of the statements *)

(** The options with which the setup command is spawned (lines 121-126). *)
Definition setup_call (test : Test.t) (cwd : string) : Spawn :=
  mkSpawn (Test.setup test) cwd None (Test.timeout test * 60 * 1000)%Q None.

(** The options with which the run command is spawned (lines 82-87, 136). *)
Definition run_call (test : Test.t) (cwd : string) (timeout : Q) (feedbackPath : string) : Spawn :=
  mkSpawn (Test.run test) cwd (Some (Js.or_empty (Test.input test))) timeout (Some feedbackPath).

(** The feedback path [runTest] builds when it draws its uuid in [w] (line 132). *)
Definition feedback_path (host : Host) (feedbackDir : string) (w : World) : string :=
  path_join feedbackDir ("grading_feedback_" +:+ uuidv4 host (uuids_drawn w) +:+ ".md").

(** What a command does when spawned in [w], and the world it leaves. *)
Definition process (host : Host) (req : Spawn) (w : World) : Process :=
  sh host req (files w) (now w).

Definition spawned (host : Host) (req : Spawn) (w : World) : World :=
  snd (execSync host req w).

(** The world once the uuid of the feedback file has been drawn. *)
Definition drawn (host : Host) (w : World) : World := snd (draw_uuid host w).

(** The setup phase on its own: the budget left for the run command and the
    world it starts in, or the error thrown by the setup command. *)
Definition after_setup (host : Host) (test : Test.t) (cwd : string) (w : World)
  : Completion Q * World :=
  match setup_step host test cwd (Vars_init test, w) with
  | (Normal _, s) => (Normal (Vars.timeout (fst s)), snd s)
  | (Throw e, s) => (Throw e, snd s)
  end.

(** The comparison stage comes to a verdict: the run command failed, or
    [compareOutput] returned a boolean. *)
Definition compare_returns (host : Host) (test : Test.t) (r : Outcome.t) : Prop :=
  Js.truthy (Outcome.error r) = true \/
  exists same : bool,
    compareOutput host (Js.or_empty (Outcome.output r)) (Js.or_empty (Test.output test))
                  (Test.comparison test) = Normal same.

(** Sum of a list of integers. *)
Definition Zsum (l : list Z) : Z := foldr Z.add 0%Z l.

(** The directory [createFeedbackDir] returns. *)
Definition feedback_dir (host : Host) : string :=
  path_join (if Js.truthy (RUNNER_TEMP host) then default "" (RUNNER_TEMP host) else "/tmp")
            "_autograding_feedback".

(** [r] is what [runTest] returns for [t], started in some world. *)
Definition produced (host : Host) (cwd : string) (t : Test.t) (r : TestResult.t) : Prop :=
  exists w w', runTest host t cwd (feedback_dir host) w = (Normal r, w').

(** What a test adds to [accumulatedPoints] (lines 208-210). *)
Definition earned (t : Test.t) (r : TestResult.t) : Z :=
  if Js.truthy_num (Test.points t) then Js.num_or_zero (TestResult.score r) else 0%Z.

(** The events that publish the points summary. *)
Definition is_summary (ev : Event) : bool :=
  match ev with
  | SetOutputPoints _ _ | CheckRunOutput _ _ => true
  | _ => false
  end.

Definition summaries (w : World) : list Event := List.filter is_summary (trace w).

(** A spec whose points are [0], with the [points] field taken away. *)
Definition forget_zero_points (t : Test.t) : Test.t :=
  match Test.points t with
  | Some 0%Z =>
      Test.mk (Test.name t) (Test.setup t) (Test.run t) (Test.input t) (Test.output t)
              (Test.timeout t) None (Test.comparison t)
  | _ => t
  end.

(** ** A scripted host

    A shell that knows a handful of commands and a regular-expression engine
    for literal patterns; used to run the definitions on concrete inputs. *)
Module Demo.

Definition LF : string := String (ascii_of_nat 10) EmptyString.

Definition write_feedback (req : Spawn) (text : string) (fs : gmap string string)
  : gmap string string :=
  match feedback_env req with
  | Some path => <[path := text]> fs
  | None => fs
  end.

Definition sh (req : Spawn) (fs : gmap string string) (t : Z) : Process :=
  let cmd := command req in
  if String.eqb cmd "true" then
    {| exit := Completed ""; files_after := fs; elapsed := 3 |}
  else if String.eqb cmd "echo hi" then
    {| exit := Completed ("hi" +:+ LF); files_after := fs; elapsed := 4 |}
  else if String.eqb cmd "echo hi; echo ok > $AUTOGRADING_FEEDBACK" then
    {| exit := Completed ("hi" +:+ LF);
       files_after := write_feedback req ("ok" +:+ LF) fs; elapsed := 5 |}
  else if String.eqb cmd "echo hi; : > $AUTOGRADING_FEEDBACK" then
    {| exit := Completed ("hi" +:+ LF);
       files_after := write_feedback req "" fs; elapsed := 5 |}
  else if String.eqb cmd "exit 1" then
    {| exit := Failed "Command failed: exit 1"; files_after := fs; elapsed := 2 |}
  else if String.eqb cmd "node fetch.js" then
    {| exit := Failed ("Command failed: node fetch.js" +:+ LF
                       +:+ "Error: connect ETIMEDOUT 10.0.0.1:443");
       files_after := fs; elapsed := 6 |}
  else if String.eqb cmd "sleep 1000" then
    {| exit := TimedOut; files_after := fs; elapsed := 600 |}
  else
    {| exit := Failed ("Command failed: " +:+ cmd +:+ LF +:+ "/bin/sh: 1: " +:+ cmd +:+ ": not found");
       files_after := fs; elapsed := 1 |}.

(** [(] alone is rejected, as JavaScript rejects it; any other pattern is
    read as a literal, which is right for patterns without metacharacters. *)
Definition RegExp_new (source : string) : string + string :=
  if String.eqb source "("
  then inl "Invalid regular expression: /(/: Unterminated group"
  else inr source.

Fixpoint drop_chars (n : nat) (s : string) : string :=
  match n, s with
  | O, _ => s
  | S n', EmptyString => EmptyString
  | S n', String _ s' => drop_chars n' s'
  end.

Definition RegExp_match_at (r : string) (s : string) (i : nat) : bool :=
  String.prefix r (drop_chars i s).

Definition host : Host :=
  mkHost sh
         (fun n => "00000000-0000-4000-8000-00000000000" +:+ pretty n)
         (Some "/home/runner/work/_temp")
         string RegExp_new RegExp_match_at.

Definition world0 : World :=
  {| files := ∅; now := 1700000000000; uuids_drawn := 0; trace := [] |}.

Definition feedbackDir : string := feedback_dir host.

Definition cwd : string := "/home/runner/work/repo".

(** Prints [hi], writes feedback, expects [hi]: passes, worth 10 points. *)
Definition passing : Test.t :=
  Test.mk "greets" "" "echo hi; echo ok > $AUTOGRADING_FEEDBACK" None (Some "hi")
          1 (Some 10%Z) "exact".

(** The same test with its points declared as [0], and without points. *)
Definition zero_pointed : Test.t :=
  Test.mk "greets" "" "echo hi; echo ok > $AUTOGRADING_FEEDBACK" None (Some "hi")
          1 (Some 0%Z) "exact".

Definition unpointed : Test.t :=
  Test.mk "greets" "" "echo hi; echo ok > $AUTOGRADING_FEEDBACK" None (Some "hi")
          1 None "exact".

(** A setup command that exits with status 1. *)
Definition broken_setup : Test.t :=
  Test.mk "needs setup" "exit 1" "echo hi; echo ok > $AUTOGRADING_FEEDBACK" None (Some "hi")
          1 (Some 10%Z) "exact".

(** The right output, but nothing written to the feedback file. *)
Definition silent : Test.t :=
  Test.mk "no feedback" "" "echo hi" None (Some "hi") 1 (Some 10%Z) "exact".

(** An empty feedback file. *)
Definition empty_feedback : Test.t :=
  Test.mk "empty feedback" "" "echo hi; : > $AUTOGRADING_FEEDBACK" None (Some "hi")
          1 (Some 10%Z) "exact".

(** An empty feedback file, and an expected output that is not a valid
    regular expression. *)
Definition bad_pattern : Test.t :=
  Test.mk "bad pattern" "" "echo hi; : > $AUTOGRADING_FEEDBACK" None (Some "(")
          1 (Some 10%Z) "regex".

(** A budget of one millisecond and a setup command that takes three. *)
Definition slow_setup : Test.t :=
  Test.mk "tight budget" "true" "echo hi; echo ok > $AUTOGRADING_FEEDBACK" None (Some "hi")
          (1 # 60000) None "exact".

(** Totals in which an earlier test has already failed. *)
Definition failed_totals : Totals.t := Totals.set_status error Totals_init.

End Demo.

(** ** Further vocabulary *)

(** The event is the start of a subprocess. *)
Definition is_spawn (ev : Event) : bool :=
  match ev with
  | Spawned _ => true
  | _ => false
  end.

(** The event is a subprocess, or a file operation on the given path. *)
Definition concerns (path : string) (ev : Event) : Prop :=
  match ev with
  | Spawned _ => True
  | ReadFile p | ExistsFile p | Unlink p => p = path
  | _ => False
  end.

(** [test] with another expected output and another comparison method. *)
Definition expecting (output : option string) (comparison : string) (test : Test.t) : Test.t :=
  Test.mk (Test.name test) (Test.setup test) (Test.run test) (Test.input test) output
          (Test.timeout test) (Test.points test) comparison.

(** The failure signals sent with [core.setFailed]. *)
Definition is_failure (ev : Event) : bool :=
  match ev with
  | SetFailed _ => true
  | _ => false
  end.

Definition failures (w : World) : list Event := List.filter is_failure (trace w).

(** The signal [runAll] sends for a test that did not pass (line 216). *)
Definition signal (t : Test.t) : Event :=
  SetFailed ("Failed to run test '" +:+ Test.name t +:+ "'").

(** The signals due for a sequence of specs and their results, oldest first. *)
Definition signals (tests : list Test.t) (results : list TestResult.t) : list Event :=
  concat (zip_with (fun t r => if bool_decide (TestResult.status r = pass) then [] else [signal t])
                   tests results).

(** The values of [AUTOGRADING_FEEDBACK] handed to subprocesses, newest first. *)
Definition feedback_envs (w : World) : list string :=
  omap (fun ev => match ev with Spawned req => feedback_env req | _ => None end) (trace w).

(** The feedback path built from the [n]-th uuid (line 132). *)
Definition path_at (host : Host) (feedbackDir : string) (n : nat) : string :=
  path_join feedbackDir ("grading_feedback_" +:+ uuidv4 host n +:+ ".md").

(** The steps a suite takes on the machine, newest first: the directory it
    makes ([inr]) and the commands it spawns ([inl]). *)
Definition step_of (ev : Event) : option (string + string) :=
  match ev with
  | Spawned req => Some (inl (command req))
  | MkdirP path => Some (inr path)
  | _ => None
  end.

Definition steps (w : World) : list (string + string) := omap step_of (trace w).


(** ** More scripted commands *)
Module Cases.

Definition sh (req : Spawn) (fs : gmap string string) (t : Z) : Process :=
  if String.eqb (command req) "echo ok > $AUTOGRADING_FEEDBACK; exit 1" then
    {| exit := Failed "Command failed: echo ok > $AUTOGRADING_FEEDBACK; exit 1";
       files_after := Demo.write_feedback req ("ok" +:+ Demo.LF) fs; elapsed := 7 |}
  else if String.eqb (command req) "echo ok > $AUTOGRADING_FEEDBACK; sleep 1000" then
    {| exit := TimedOut;
       files_after := Demo.write_feedback req ("ok" +:+ Demo.LF) fs; elapsed := 60000 |}
  else Demo.sh req fs t.

Definition host : Host :=
  mkHost sh (uuidv4 Demo.host) (RUNNER_TEMP Demo.host)
         string Demo.RegExp_new Demo.RegExp_match_at.



(** Writes feedback, then exits with status 1. *)
Definition crash : Test.t :=
  Test.mk "crashes" "" "echo ok > $AUTOGRADING_FEEDBACK; exit 1" None (Some "hi")
          1 (Some 10%Z) "exact".

(** Writes feedback, then outlives its budget. *)
Definition hang : Test.t :=
  Test.mk "hangs" "" "echo ok > $AUTOGRADING_FEEDBACK; sleep 1000" None (Some "hi")
          1 (Some 10%Z) "exact".

End Cases.

(** ** [btoa] (lines 32-34)

    [Buffer.from(str)] gives the UTF-8 bytes of the string, which are the
    characters of a Rocq string; [toString('base64')] writes them in the
    standard base-64 alphabet, three bytes to four digits, with [=] padding.
    A text is its UTF-8 byte sequence here, and lengths count bytes; a
    JavaScript string with a lone surrogate has no such sequence. *)
Module Base64.

Definition alphabet : string :=
  "ABCDEFGHIJKLMNOPQRSTUVWXYZabcdefghijklmnopqrstuvwxyz0123456789+/".

Definition pad : ascii := ascii_of_nat 61.

(** The digit that stands for a six-bit value. *)
Definition digit (n : nat) : ascii :=
  match String.get n alphabet with
  | Some c => c
  | None => pad
  end.

Fixpoint encode (bytes : list nat) : string :=
  match bytes with
  | [] => EmptyString
  | [a] =>
      String (digit (a / 4)) (String (digit (a mod 4 * 16)) (String pad (String pad EmptyString)))
  | [a; b] =>
      String (digit (a / 4))
        (String (digit (a mod 4 * 16 + b / 16))
           (String (digit (b mod 16 * 4)) (String pad EmptyString)))
  | a :: b :: c :: rest =>
      String (digit (a / 4))
        (String (digit (a mod 4 * 16 + b / 16))
           (String (digit (b mod 16 * 4 + c / 64))
              (String (digit (c mod 64)) (encode rest))))
  end.

Definition bytes_of (s : string) : list nat := map nat_of_ascii (list_ascii_of_string s).

Definition string_of (bytes : list nat) : string :=
  string_of_list_ascii (map ascii_of_nat bytes).

(** The six-bit value of a digit; [None] for any other character. *)
Definition value (c : ascii) : option nat :=
  let n := nat_of_ascii c in
  if (65 <=? n)%nat && (n <=? 90)%nat then Some (n - 65)
  else if (97 <=? n)%nat && (n <=? 122)%nat then Some (n - 71)
  else if (48 <=? n)%nat && (n <=? 57)%nat then Some (n + 4)
  else if (n =? 43)%nat then Some 62
  else if (n =? 47)%nat then Some 63
  else None.

(** Reading base-64 text back: the inverse that a consumer of the [result]
    output applies. *)
Fixpoint decode (s : string) : option (list nat) :=
  match s with
  | EmptyString => Some []
  | String c1 (String c2 (String c3 (String c4 rest))) =>
      if Ascii.eqb c4 pad then
        match rest with
        | EmptyString =>
            if Ascii.eqb c3 pad then
              match value c1, value c2 with
              | Some v1, Some v2 => Some [v1 * 4 + v2 / 16]
              | _, _ => None
              end
            else
              match value c1, value c2, value c3 with
              | Some v1, Some v2, Some v3 =>
                  Some [v1 * 4 + v2 / 16; v2 mod 16 * 16 + v3 / 4]
              | _, _, _ => None
              end
        | _ => None
        end
      else
        match value c1, value c2, value c3, value c4, decode rest with
        | Some v1, Some v2, Some v3, Some v4, Some bytes =>
            Some (v1 * 4 + v2 / 16 :: v2 mod 16 * 16 + v3 / 4 :: v3 mod 4 * 64 + v4 :: bytes)
        | _, _, _, _, _ => None
        end
  | _ => None
  end.

End Base64.

(** [btoa] (lines 32-34). *)
Definition btoa (str : string) : string := Base64.encode (Base64.bytes_of str).

(** The inverse of [btoa]. *)
Definition atob (text : string) : option string :=
  match Base64.decode text with
  | Some bytes => Some (Base64.string_of bytes)
  | None => None
  end.

(** * Properties *)

Local Open Scope list_scope.

Create HintDb prog discriminated.
#[global] Hint Unfold ret bind try_catch modify on_world assign locals emit eval
  with_locals getTime : prog.

Ltac prog_unfold := autounfold with prog in *.

(** ** Sequencing *)

Lemma bind_normal {S A B} (m : Prog S A) (k : A -> Prog S B) s a s' :
  m s = (Normal a, s') -> bind m k s = k a s'.
Proof. intros H. unfold bind. now rewrite H. Qed.

Lemma bind_throw {S A B} (m : Prog S A) (k : A -> Prog S B) s e s' :
  m s = (Throw e, s') -> bind m k s = (Throw e, s').
Proof. intros H. unfold bind. now rewrite H. Qed.

(** ** Truthiness *)

Lemma truthy_Some s : Js.truthy (Some s) = true <-> s <> "".
Proof.
  unfold Js.truthy. destruct (String.eqb_spec s ""); cbn; split; congruence.
Qed.

Lemma truthy_is_Some s : Js.truthy s = true -> exists x, s = Some x /\ x <> "".
Proof.
  destruct s as [x|]; cbn; [|discriminate].
  intros H. exists x. split; [reflexivity|]. now apply truthy_Some.
Qed.

Lemma or_empty_Some s : Js.or_empty (Some s) = s.
Proof.
  unfold Js.or_empty, Js.truthy. destruct (String.eqb_spec s ""); cbn; congruence.
Qed.

Lemma or_null_None_iff s : Js.or_null s = None <-> s = None \/ s = Some "".
Proof.
  unfold Js.or_null, Js.truthy. destruct s as [x|]; [|tauto].
  destruct (String.eqb_spec x ""); cbn; subst; split; intros; try tauto; try congruence.
  destruct H as [H|H]; congruence.
Qed.

Lemma num_or_null_nonzero p : p <> 0%Z -> Js.num_or_null (Some p) = Some p.
Proof.
  intros H. unfold Js.num_or_null, Js.truthy_num.
  destruct (Z.eqb_spec p 0); [contradiction|reflexivity].
Qed.

Lemma truthy_num_nonzero p : p <> 0%Z -> Js.truthy_num (Some p) = true.
Proof.
  intros H. unfold Js.truthy_num. destruct (Z.eqb_spec p 0); [contradiction|reflexivity].
Qed.

Section Steps.

Context (host : Host).

Lemma execSync_eq req w :
  execSync host req w = (exit_result (exit (process host req w)), spawned host req w).
Proof. reflexivity. Qed.

(** *** The setup phase *)

Lemma setup_step_absent test cwd s :
  Test.setup test = "" -> setup_step host test cwd s = (Normal tt, s).
Proof. intros H. unfold setup_step. rewrite H. reflexivity. Qed.

Lemma setup_step_run test cwd v w :
  Test.setup test <> "" ->
  let req := mkSpawn (Test.setup test) cwd None (Vars.timeout v) None in
  setup_step host test cwd (v, w) =
    match exit_result (exit (process host req w)) with
    | Normal _ =>
        (Normal tt,
         (Vars.set_timeout (Vars.timeout v - inject_Z (elapsed (process host req w)))%Q v,
          spawned host req w))
    | Throw e => (Throw e, (v, spawned host req w))
    end.
Proof.
  intros Hs req. unfold setup_step.
  apply truthy_Some in Hs. rewrite Hs.
  prog_unfold. cbn. fold req. unfold process.
  destruct (exit_result _); cbn; [|reflexivity].
  rewrite Z.add_simpl_l. reflexivity.
Qed.

Lemma after_setup_absent test cwd w :
  Test.setup test = "" ->
  after_setup host test cwd w = (Normal (Test.timeout test * 60 * 1000)%Q, w).
Proof. intros H. unfold after_setup. rewrite setup_step_absent by assumption. reflexivity. Qed.

Lemma after_setup_run test cwd w :
  Test.setup test <> "" ->
  after_setup host test cwd w =
    (match exit_result (exit (process host (setup_call test cwd) w)) with
     | Normal _ =>
         Normal (Test.timeout test * 60 * 1000
                 - inject_Z (elapsed (process host (setup_call test cwd) w)))%Q
     | Throw e => Throw e
     end,
     spawned host (setup_call test cwd) w).
Proof.
  intros H. unfold after_setup. rewrite setup_step_run by assumption.
  cbn. fold (setup_call test cwd).
  destruct (exit_result _); reflexivity.
Qed.

(** The local variables with which the run phase starts. *)
Lemma setup_step_vars test cwd w :
  setup_step host test cwd (Vars_init test, w) =
    match after_setup host test cwd w with
    | (Normal budget, w1) => (Normal tt, (Vars.set_timeout budget (Vars_init test), w1))
    | (Throw e, w1) => (Throw e, (Vars_init test, w1))
    end.
Proof.
  destruct (String.eqb_spec (Test.setup test) "") as [Hs|Hs].
  - rewrite after_setup_absent, setup_step_absent by assumption. reflexivity.
  - rewrite after_setup_run, setup_step_run by assumption.
    cbn. fold (setup_call test cwd).
    destruct (exit_result _); reflexivity.
Qed.

(** *** The run phase *)

Lemma executeTest_eq command input timeout cwd file w :
  let req := mkSpawn command cwd (Some input) timeout (Some file) in
  executeTest host command input timeout cwd file w =
    (Normal
       match exit_result (exit (process host req w)) with
       | Normal out => Outcome.mk (Some (Js.trim out)) None
       | Throw e =>
           Outcome.mk None
             (Some (if Js.includes (message e) "ETIMEDOUT"
                    then "Command was killed due to timeout"
                    else message e))
       end,
     spawned host req w).
Proof.
  intros req. unfold executeTest, try_catch, bind. fold req.
  rewrite execSync_eq. destruct (exit_result _); reflexivity.
Qed.

Lemma run_step_eq test cwd path v w r w2 :
  executeTest host (Test.run test) (Js.or_empty (Test.input test)) (Vars.timeout v) cwd path w
    = (Normal r, w2) ->
  run_step host test cwd path (v, w) =
    let v1 := Vars.set_execution_time (Some (now w2 - now w)%Z) v in
    if Js.truthy (Outcome.error r) then
      (Normal tt,
       (Vars.set_score (zero_if_pointed test)
          (Vars.set_err_message (Outcome.error r) (Vars.set_status error v1)), w2))
    else
      match compareOutput host (Js.or_empty (Outcome.output r))
                          (Js.or_empty (Test.output test)) (Test.comparison test) with
      | Normal same =>
          if negb same then
            (Normal tt,
             (Vars.set_score (zero_if_pointed test)
                (Vars.set_err_message
                   (Some ("Output does not match expected. Got: " +:+ Js.show (Outcome.output r)))
                   (Vars.set_status fail v1)), w2))
          else (Normal tt, (v1, w2))
      | Throw e => (Throw e, (v1, w2))
      end.
Proof.
  intros H. unfold run_step. prog_unfold. cbn. rewrite H. cbn.
  destruct (Js.truthy (Outcome.error r)); [reflexivity|].
  destruct (compareOutput _ _ _ _) as [[]|]; reflexivity.
Qed.

(** *** The feedback phase *)

Lemma feedback_step_eq path v w :
  feedback_step path (v, w) =
    match files w !! path with
    | Some text =>
        (Normal tt,
         (Vars.set_feedback (Some text) v,
          {| files := delete path (files w); now := now w; uuids_drawn := uuids_drawn w;
             trace := Unlink path :: ExistsFile path :: ReadFile path :: trace w |}))
    | None => (Throw (mkError (ENOENT_message "open" path)), (v, record (ReadFile path) w))
    end.
Proof.
  unfold feedback_step, readFileSync, existsSync, unlinkSync. prog_unfold. cbn.
  destruct (files w !! path) as [text|] eqn:E; cbn; [|reflexivity].
  rewrite bool_decide_eq_true_2 by (rewrite E; eauto). cbn. rewrite E. reflexivity.
Qed.

(** *** The whole of [runTest] *)

Lemma runTest_eq test cwd dir w :
  runTest host test cwd dir w =
    match runTest_try host test cwd dir (Vars_init test, w) with
    | (Normal _, s) => (Normal (result_of test (fst s)), snd s)
    | (Throw e, s) =>
        (Normal (result_of test
                   (Vars.set_err_message (Some (message e)) (Vars.set_status error (fst s)))),
         snd s)
    end.
Proof.
  unfold runTest, runTest_catch. prog_unfold.
  destruct (runTest_try _ _ _ _ _) as [[[]|e] [v w']]; reflexivity.
Qed.

Lemma runTest_try_eq test cwd dir w :
  runTest_try host test cwd dir (Vars_init test, w) =
    match after_setup host test cwd w with
    | (Normal budget, w1) =>
        let path := feedback_path host dir w1 in
        bind (run_step host test cwd path) (fun _ => feedback_step path)
             (Vars.set_timeout budget (Vars_init test), drawn host w1)
    | (Throw e, w1) => (Throw e, (Vars_init test, w1))
    end.
Proof.
  unfold runTest_try. unfold bind at 1. rewrite setup_step_vars.
  destruct (after_setup _ _ _ _) as [[budget|e] w1]; reflexivity.
Qed.

(** [runTest] always returns. *)
Lemma runTest_returns test cwd dir w :
  exists r w', runTest host test cwd dir w = (Normal r, w').
Proof.
  rewrite runTest_eq.
  destruct (runTest_try _ _ _ _ _) as [[[]|e] s]; eauto.
Qed.

End Steps.

(** ** Properties of [runTest] *)

(** Case analysis of a run that got past the setup phase: the run command
    failed, the comparison threw, the output differed or it matched; then the
    feedback file was there or not. *)
Ltac graded Hsetup Hexec :=
  rewrite runTest_eq, runTest_try_eq, Hsetup; cbn zeta; unfold bind;
  match goal with
  | |- context [run_step ?h ?t ?c ?p (?v, ?w0)] =>
      rewrite (run_step_eq h t c p v w0 _ _ Hexec)
  end; cbn zeta;
  let c := fresh "cmp" in
  match goal with
  | |- context [Js.truthy (Outcome.error ?r)] =>
      destruct (Js.truthy (Outcome.error r)) eqn:?;
      [| destruct (compareOutput _ _ _ _) as [[|]|c] eqn:? ]
  end;
  cbn [negb]; rewrite ?feedback_step_eq;
  try match goal with
  | |- context [files ?w2 !! ?p] => destruct (files w2 !! p) eqn:?
  end;
  cbn.

(** C7: a setup command that exits non-zero or times out aborts the test: the
    setup is the only thing spawned, no feedback path is drawn or read, and
    the result has status [error], the thrown message as [err_message], and
    no content. *)
Theorem setup_failure_aborts host test cwd dir w e :
  Test.setup test <> "" ->
  exit_result (exit (process host (setup_call test cwd) w)) = Throw e ->
  exists r,
    runTest host test cwd dir w = (Normal r, spawned host (setup_call test cwd) w) /\
    trace (spawned host (setup_call test cwd) w) = Spawned (setup_call test cwd) :: trace w /\
    uuids_drawn (spawned host (setup_call test cwd) w) = uuids_drawn w /\
    TestResult.status r = error /\
    TestResult.err_message r = Some (message e) /\
    TestResult.content r = None /\
    TestResult.execution_time r = None.
Proof.
  intros Hs He.
  rewrite runTest_eq, runTest_try_eq, after_setup_run, He by assumption.
  eexists. split; [reflexivity|]. cbn. auto 10.
Qed.

(** The [catch] block sets [status] and [err_message] only: after a failed
    setup command the score is still the one [runTest] started with, where
    the two branches of the run phase would have written [0]. *)
Lemma setup_failure_keeps_score host test cwd dir w e res w' P :
  Test.setup test <> "" ->
  exit_result (exit (process host (setup_call test cwd) w)) = Throw e ->
  Test.points test = Some P -> P <> 0%Z ->
  runTest host test cwd dir w = (Normal res, w') ->
  TestResult.status res = error /\ TestResult.score res = Some P.
Proof.
  intros Hs He HP HP0.
  rewrite runTest_eq, runTest_try_eq, after_setup_run, He by assumption.
  intros H. injection H as <- _. cbn. rewrite HP.
  split; [reflexivity|]. now apply num_or_null_nonzero.
Qed.

(** C2, amended: once the run phase is reached and the comparison stage comes
    to a verdict, the feedback file is read; when it is missing the result has
    status [error] and the message of the failed read, whatever the verdict. *)
Theorem feedback_read_failure_overrides host test cwd dir w budget w1 r w2 :
  after_setup host test cwd w = (Normal budget, w1) ->
  executeTest host (Test.run test) (Js.or_empty (Test.input test)) budget cwd
              (feedback_path host dir w1) (drawn host w1) = (Normal r, w2) ->
  compare_returns host test r ->
  exists res w' later,
    runTest host test cwd dir w = (Normal res, w') /\
    trace w' = later ++ ReadFile (feedback_path host dir w1) :: trace w2 /\
    (files w2 !! feedback_path host dir w1 = None ->
       later = [] /\
       TestResult.status res = error /\
       TestResult.err_message res
         = Some (ENOENT_message "open" (feedback_path host dir w1))).
Proof.
  intros Hsetup Hexec Hcmp.
  graded Hsetup Hexec.
  all: try (destruct Hcmp as [Hcmp|[same Hcmp]]; congruence).
  all: do 3 eexists; split; [reflexivity|]; cbn; split;
    [ first [ exact (eq_refl : _ = [] ++ _) | exact (eq_refl : _ = [_; _] ++ _) ]
    | intros; auto; discriminate ].
Qed.

(** C10, amended: when the run command leaves an empty feedback file and the
    comparison stage comes to a verdict, the result has no content and the
    file is gone when [runTest] returns. *)
Theorem empty_feedback_is_null host test cwd dir w budget w1 r w2 :
  after_setup host test cwd w = (Normal budget, w1) ->
  executeTest host (Test.run test) (Js.or_empty (Test.input test)) budget cwd
              (feedback_path host dir w1) (drawn host w1) = (Normal r, w2) ->
  compare_returns host test r ->
  files w2 !! feedback_path host dir w1 = Some "" ->
  exists res w',
    runTest host test cwd dir w = (Normal res, w') /\
    TestResult.content res = None /\
    files w' = delete (feedback_path host dir w1) (files w2) /\
    files w' !! feedback_path host dir w1 = None.
Proof.
  intros Hsetup Hexec Hcmp Hfile.
  graded Hsetup Hexec.
  all: try (destruct Hcmp as [Hcmp|[same Hcmp]]; congruence).
  all: simplify_eq.
  all: do 2 eexists; split; [reflexivity|]; cbn;
    split; [reflexivity|]; split; [reflexivity|]; apply lookup_delete_eq.
Qed.

Lemma executeTest_returns host command input timeout cwd file w :
  exists r,
    executeTest host command input timeout cwd file w
      = (Normal r, spawned host (mkSpawn command cwd (Some input) timeout (Some file)) w).
Proof. rewrite executeTest_eq. eauto. Qed.

(** Without points, or with points [0], the score is null on every path. *)
Lemma runTest_score_null host test cwd dir w res w' :
  Test.points test = None \/ Test.points test = Some 0%Z ->
  runTest host test cwd dir w = (Normal res, w') ->
  TestResult.score res = None.
Proof.
  intros HP Hrun.
  destruct (after_setup host test cwd w) as [[budget|e] w1] eqn:Hsetup.
  - destruct (executeTest_returns host (Test.run test) (Js.or_empty (Test.input test)) budget
                cwd (feedback_path host dir w1) (drawn host w1)) as [r Hexec].
    revert Hrun. graded Hsetup Hexec.
    all: intros Hrun; injection Hrun as <- <-; cbn; unfold zero_if_pointed.
    all: destruct HP as [HP|HP]; rewrite HP; reflexivity.
  - revert Hrun. rewrite runTest_eq, runTest_try_eq, Hsetup.
    intros Hrun; injection Hrun as <- <-; cbn.
    destruct HP as [HP|HP]; rewrite HP; reflexivity.
Qed.

(** C1, amended: with non-zero points [P] the score is [P] on [pass], [0] on
    [fail], and [0] when the run command itself failed; with no points, or
    points [0], the score is null whatever the status. *)
Theorem score_follows_status host test cwd dir w res w' :
  runTest host test cwd dir w = (Normal res, w') ->
  (forall P, Test.points test = Some P -> P <> 0%Z ->
     (TestResult.status res = pass -> TestResult.score res = Some P) /\
     (TestResult.status res = fail -> TestResult.score res = Some 0%Z) /\
     (forall budget w1 r w2,
        after_setup host test cwd w = (Normal budget, w1) ->
        executeTest host (Test.run test) (Js.or_empty (Test.input test)) budget cwd
                    (feedback_path host dir w1) (drawn host w1) = (Normal r, w2) ->
        Js.truthy (Outcome.error r) = true ->
        TestResult.status res = error /\ TestResult.score res = Some 0%Z)) /\
  (Test.points test = None \/ Test.points test = Some 0%Z ->
     TestResult.score res = None).
Proof.
  intros Hrun.
  destruct (after_setup host test cwd w) as [[budget|e] w1] eqn:Hsetup.
  - destruct (executeTest_returns host (Test.run test) (Js.or_empty (Test.input test)) budget
                cwd (feedback_path host dir w1) (drawn host w1)) as [r Hexec].
    revert Hrun. graded Hsetup Hexec.
    all: intros Hrun; injection Hrun as <- <-.
    all: (split;
      [ intros P HP HP0; split; [|split];
        [ | | intros b1 w1' r1 w2' Hs1 He1 Ht1; simplify_eq;
              pose proof (eq_trans (eq_sym He1) Hexec) as Hsame; simplify_eq ];
        cbn; unfold zero_if_pointed; rewrite HP;
        rewrite ?num_or_null_nonzero, ?truthy_num_nonzero by assumption;
        try split; first [ discriminate | reflexivity | congruence ]
      | intros HP; cbn; unfold zero_if_pointed; destruct HP as [HP|HP]; rewrite HP;
        reflexivity ]).
  - revert Hrun. rewrite runTest_eq, runTest_try_eq, Hsetup. intros Hrun; simplify_eq; cbn.
    split.
    + intros P HP HP0. repeat split; try discriminate; congruence.
    + intros [HP|HP]; rewrite HP; reflexivity.
Qed.


(** ** Properties of [executeTest] and [compareOutput] *)

(** C5, amended: [executeTest] returns, never throws, and fills exactly one
    of [output] and [error].  A timeout gives the fixed text; so does any
    other failure whose message contains [ETIMEDOUT]; every other failure
    message is passed through unchanged. *)
Theorem executeTest_outcome host command input timeout cwd file w :
  let req := mkSpawn command cwd (Some input) timeout (Some file) in
  exists r,
    executeTest host command input timeout cwd file w = (Normal r, spawned host req w) /\
    ((is_Some (Outcome.output r) /\ Outcome.error r = None) \/
     (Outcome.output r = None /\ is_Some (Outcome.error r))) /\
    (forall out, exit (process host req w) = Completed out ->
       r = Outcome.mk (Some (Js.trim out)) None) /\
    (exit (process host req w) = TimedOut ->
       r = Outcome.mk None (Some "Command was killed due to timeout")) /\
    (forall msg, exit (process host req w) = Failed msg ->
       Js.includes msg "ETIMEDOUT" = true ->
       r = Outcome.mk None (Some "Command was killed due to timeout")) /\
    (forall msg, exit (process host req w) = Failed msg ->
       Js.includes msg "ETIMEDOUT" = false ->
       r = Outcome.mk None (Some msg)).
Proof.
  intros req. rewrite executeTest_eq. fold req.
  eexists. split; [reflexivity|].
  destruct (exit (process host req w)) as [out| |msg] eqn:E; cbn.
  - split; [left; eauto|]. repeat split; intros; simplify_eq; reflexivity.
  - split; [right; eauto|]. repeat split; intros; simplify_eq; reflexivity.
  - split; [right; eauto|].
    repeat split; intros; simplify_eq; rewrite ?H0; reflexivity.
Qed.

Lemma append_cons c s t : String c s +:+ t = String c (s +:+ t).
Proof. reflexivity. Qed.

Lemma append_nil t : "" +:+ t = t.
Proof. reflexivity. Qed.

Lemma prefix_spec sub s :
  String.prefix sub s = true <-> exists post, s = sub +:+ post.
Proof.
  revert s. induction sub as [|c sub IH]; intros s.
  - split; [intros _; exists s; reflexivity | intros _; destruct s; reflexivity].
  - destruct s as [|d s]; cbn.
    + split; [discriminate|]. intros [post H]. discriminate.
    + destruct (Ascii.ascii_dec c d) as [->|Hcd].
      * rewrite IH. split; intros [post H]; exists post;
          rewrite append_cons in *; congruence.
      * split; [discriminate|]. intros [post H]. rewrite append_cons in H. congruence.
Qed.

Lemma includes_spec s sub :
  Js.includes s sub = true <-> exists pre post, s = pre +:+ sub +:+ post.
Proof.
  induction s as [|c s IH]; cbn [Js.includes].
  - rewrite orb_false_r, prefix_spec. split.
    + intros [post H]. exists "", post. exact H.
    + intros [[|d pre] [post H]]; [eauto | discriminate].
  - rewrite orb_true_iff, prefix_spec, IH. split.
    + intros [[post H]|(pre & post & H)].
      * exists "", post. exact H.
      * exists (String c pre), post. rewrite append_cons. now rewrite H.
    + intros [[|d pre] [post H]].
      * left. eauto.
      * right. rewrite append_cons in H. injection H as -> H. eauto.
Qed.

Lemma RegExp_test_spec host (r : RegExp host) s :
  RegExp_test host r s = true <->
  exists i, (i <= String.length s)%nat /\ RegExp_match_at host r s i = true.
Proof.
  unfold RegExp_test. rewrite existsb_exists. split.
  - intros (i & Hi & Hm). apply in_seq in Hi. exists i. split; [lia|assumption].
  - intros (i & Hi & Hm). exists i. split; [apply in_seq; lia|assumption].
Qed.

(** C3: [exact] holds iff the strings are equal, [included] iff the expected
    text occurs inside the output, [regex] iff the expected text compiles and
    the pattern matches at some offset of the output; any other method throws
    the invalid-method error. *)
Theorem compareOutput_modes host actual expected :
  (exists same, compareOutput host actual expected "exact" = Normal same /\
                (same = true <-> actual = expected)) /\
  (exists same, compareOutput host actual expected "included" = Normal same /\
                (same = true <-> exists pre post, actual = pre +:+ expected +:+ post)) /\
  (compareOutput host actual expected "regex" = Normal true <->
     exists regex i, RegExp_new host expected = inr regex /\
                     (i <= String.length actual)%nat /\
                     RegExp_match_at host regex actual i = true) /\
  (forall regex, RegExp_new host expected = inr regex ->
     exists same, compareOutput host actual expected "regex" = Normal same) /\
  (forall method, method <> "exact" -> method <> "included" -> method <> "regex" ->
     compareOutput host actual expected method
       = Throw (mkError ("Invalid comparison method: " +:+ method))).
Proof.
  repeat split.
  - eexists. split; [reflexivity|]. apply String.eqb_eq.
  - eexists. split; [reflexivity|]. apply includes_spec.
  - unfold compareOutput; cbn. destruct (RegExp_new host expected) as [err|regex]; [discriminate|].
    intros H. injection H as H. apply RegExp_test_spec in H as (i & Hi & Hm). eauto.
  - intros (regex & i & Hnew & Hi & Hm). unfold compareOutput; cbn. rewrite Hnew.
    f_equal. apply RegExp_test_spec. eauto.
  - intros regex Hnew. unfold compareOutput; cbn. rewrite Hnew. eauto.
  - intros method H1 H2 H3. unfold compareOutput.
    apply String.eqb_neq in H1, H2, H3. now rewrite H1, H2, H3.
Qed.

(** ** Properties of [runAll] *)

Section Suite.

Context (host : Host).

Lemma runAll_body_eq cwd dir test v w r w1 :
  runTest host test cwd dir w = (Normal r, w1) ->
  runAll_body host cwd dir test (v, w) =
    (Normal tt,
     let v1 := if Js.truthy_num (Test.points test)
               then Totals.declare (default 0%Z (Test.points test)) v else v in
     let v2 := Totals.push r v1 in
     let v3 := if Js.truthy_num (Test.points test)
               then Totals.earn (Js.num_or_zero (TestResult.score r)) v2 else v2 in
     if bool_decide (TestResult.status r = pass) then (v3, w1)
     else (Totals.set_status error v3,
           record (SetFailed ("Failed to run test '" +:+ Test.name test +:+ "'")) w1)).
Proof.
  intros H. unfold runAll_body. prog_unfold.
  destruct (Js.truthy_num (Test.points test)); cbn; rewrite H; cbn;
    destruct (bool_decide _); reflexivity.
Qed.

Lemma createFeedbackDir_eq w :
  createFeedbackDir host w = (Normal (feedback_dir host), record (MkdirP (feedback_dir host)) w).
Proof. reflexivity. Qed.

Lemma Zsum_app l1 l2 : Zsum (l1 ++ l2) = (Zsum l1 + Zsum l2)%Z.
Proof. unfold Zsum. induction l1 as [|x l1 IH]; cbn; [reflexivity|]. rewrite IH. lia. Qed.

Lemma after_setup_summaries test cwd w c w1 :
  after_setup host test cwd w = (c, w1) -> summaries w1 = summaries w.
Proof.
  destruct (String.eqb_spec (Test.setup test) "") as [Hs|Hs].
  - rewrite after_setup_absent by assumption. congruence.
  - rewrite after_setup_run by assumption. intros H. injection H as _ <-. reflexivity.
Qed.

(** [runTest] publishes no points summary. *)
Lemma runTest_summaries test cwd dir w r w' :
  runTest host test cwd dir w = (Normal r, w') -> summaries w' = summaries w.
Proof.
  destruct (after_setup host test cwd w) as [[budget|e] w1] eqn:Hsetup;
    pose proof (after_setup_summaries _ _ _ _ _ Hsetup) as <-.
  - destruct (executeTest_returns host (Test.run test) (Js.or_empty (Test.input test)) budget
                cwd (feedback_path host dir w1) (drawn host w1)) as [res Hexec].
    graded Hsetup Hexec; intros H; injection H as _ <-; reflexivity.
  - rewrite runTest_eq, runTest_try_eq, Hsetup. intros H; injection H as _ <-. reflexivity.
Qed.

(** One round of the loop. *)
Lemma runAll_body_spec cwd dir t v w :
  exists r w1 vb wb,
    runTest host t cwd dir w = (Normal r, w1) /\
    runAll_body host cwd dir t (v, w) = (Normal tt, (vb, wb)) /\
    Totals.testResults vb = Totals.testResults v ++ [r] /\
    Totals.availablePoints vb
      = (Totals.availablePoints v
         + if Js.truthy_num (Test.points t) then default 0 (Test.points t) else 0)%Z /\
    Totals.accumulatedPoints vb = (Totals.accumulatedPoints v + earned t r)%Z /\
    Totals.hasPoints vb = Totals.hasPoints v || Js.truthy_num (Test.points t) /\
    Totals.status vb = (if bool_decide (TestResult.status r = pass)
                        then Totals.status v else error) /\
    summaries wb = summaries w.
Proof.
  destruct (runTest_returns host t cwd dir w) as (r & w1 & Hr).
  exists r, w1. rewrite (runAll_body_eq _ _ _ _ _ _ _ Hr).
  pose proof (runTest_summaries _ _ _ _ _ _ Hr) as Hsum.
  unfold earned.
  destruct (Js.truthy_num (Test.points t)), (bool_decide (TestResult.status r = pass));
    do 2 eexists; (split; [exact Hr|]); (split; [reflexivity|]); cbn;
    rewrite ?orb_true_r, ?orb_false_r; repeat split; auto; lia.
Qed.

Lemma truthy_num_default p :
  (if Js.truthy_num p then default 0%Z p else 0%Z) = default 0%Z p.
Proof.
  destruct p as [p|]; cbn; [|reflexivity]. destruct (Z.eqb_spec p 0); cbn; congruence.
Qed.

Lemma Zsum_omap_cons t tests :
  Zsum (omap Test.points (t :: tests))
  = (default 0%Z (Test.points t) + Zsum (omap Test.points tests))%Z.
Proof. unfold Zsum. cbn. destruct (Test.points t); cbn; lia. Qed.

(** The loop from any totals: it runs to its end, and the totals move as
    the source says. *)
Lemma loop_spec cwd tests :
  forall v w,
  exists v' w' rs,
    for_of tests (runAll_body host cwd (feedback_dir host)) (v, w) = (Normal tt, (v', w')) /\
    Totals.testResults v' = Totals.testResults v ++ rs /\
    Forall2 (produced host cwd) tests rs /\
    Totals.availablePoints v' = (Totals.availablePoints v + Zsum (omap Test.points tests))%Z /\
    Totals.accumulatedPoints v'
      = (Totals.accumulatedPoints v + Zsum (zip_with earned tests rs))%Z /\
    Totals.hasPoints v'
      = Totals.hasPoints v || existsb (fun t => Js.truthy_num (Test.points t)) tests /\
    (Totals.status v' = pass <->
       Totals.status v = pass /\ Forall (fun r => TestResult.status r = pass) rs) /\
    (Totals.status v' = Totals.status v \/ Totals.status v' = error) /\
    summaries w' = summaries w.
Proof.
  induction tests as [|t tests IH]; intros v w.
  - exists v, w, []. cbn. rewrite app_nil_r, orb_false_r.
    repeat split; auto; try lia; try tauto.
  - destruct (runAll_body_spec cwd (feedback_dir host) t v w)
      as (r & w1 & vb & wb & Hr & Hb & Hres & Hav & Hacc & Hhas & Hst & Hsum).
    destruct (IH vb wb) as (v' & w' & rs & Hloop & Hres' & Hprod & Hav' & Hacc' & Hhas'
                            & Hst' & Hmono & Hsum').
    exists v', w', (r :: rs).
    cbn [for_of]. rewrite (bind_normal _ _ _ _ _ Hb).
    split; [exact Hloop|].
    split; [rewrite Hres', Hres, <- app_assoc; reflexivity|].
    split; [constructor; [exists w, w1; exact Hr | exact Hprod]|].
    split; [rewrite Hav', Hav, truthy_num_default, Zsum_omap_cons; lia|].
    split; [rewrite Hacc', Hacc;
            change (Zsum (zip_with earned (t :: tests) (r :: rs)))
              with (earned t r + Zsum (zip_with earned tests rs))%Z; lia|].
    split; [rewrite Hhas', Hhas; cbn; now rewrite orb_assoc|].
    split; [|split; [|congruence]].
    + rewrite Hst', Hst, Forall_cons. case_bool_decide; [tauto|].
      split; [intros [? _]; discriminate | tauto].
    + rewrite Hst in Hmono. case_bool_decide; [exact Hmono|].
      right. destruct Hmono as [->| ->]; reflexivity.
Qed.

(** The loop as [runAll] starts it. *)
Lemma runAll_loop_spec tests cwd w :
  exists v wl,
    runAll_loop host tests cwd (Totals_init, w) = (Normal tt, (v, wl)) /\
    Forall2 (produced host cwd) tests (Totals.testResults v) /\
    Totals.availablePoints v = Zsum (omap Test.points tests) /\
    Totals.accumulatedPoints v = Zsum (zip_with earned tests (Totals.testResults v)) /\
    Totals.hasPoints v = existsb (fun t => Js.truthy_num (Test.points t)) tests /\
    (Totals.status v = pass <->
       Forall (fun r => TestResult.status r = pass) (Totals.testResults v)) /\
    (Totals.status v = pass \/ Totals.status v = error) /\
    summaries wl = summaries w.
Proof.
  destruct (loop_spec cwd tests Totals_init (record (MkdirP (feedback_dir host)) w))
    as (v & wl & rs & Hloop & Hres & Hprod & Hav & Hacc & Hhas & Hst & Hmono & Hsum).
  exists v, wl. cbn in Hres. subst rs.
  split; [exact Hloop|].
  repeat split; try assumption; tauto.
Qed.

Lemma runAll_eq tests cwd w v wl :
  runAll_loop host tests cwd (Totals_init, w) = (Normal tt, (v, wl)) ->
  runAll host tests cwd w =
    (Normal tt,
     record (SetOutputResult (results_of v))
       (if Totals.hasPoints v
        then record (CheckRunOutput (Totals.accumulatedPoints v) (Totals.availablePoints v))
               (record (SetOutputPoints (Totals.accumulatedPoints v) (Totals.availablePoints v))
                  wl)
        else wl)).
Proof.
  intros H. unfold runAll, with_locals. rewrite (bind_normal _ _ _ _ _ H).
  prog_unfold. cbn. destruct (Totals.hasPoints v); reflexivity.
Qed.

Lemma runTest_name test cwd dir w r w' :
  runTest host test cwd dir w = (Normal r, w') -> TestResult.name r = Test.name test.
Proof.
  rewrite runTest_eq.
  destruct (runTest_try _ _ _ _ _) as [[[]|e] s]; intros H; injection H as <- _; reflexivity.
Qed.

Lemma runTest_forget t : runTest host (forget_zero_points t) = runTest host t.
Proof.
  destruct t as [n s r i o tm [[| |]|] c]; reflexivity.
Qed.

Lemma runAll_body_forget cwd dir t :
  runAll_body host cwd dir (forget_zero_points t) = runAll_body host cwd dir t.
Proof.
  destruct t as [n s r i o tm [[| |]|] c]; reflexivity.
Qed.

Lemma for_of_forget cwd dir tests :
  for_of (map forget_zero_points tests) (runAll_body host cwd dir)
  = for_of tests (runAll_body host cwd dir).
Proof.
  induction tests as [|t tests IH]; cbn [map for_of]; [reflexivity|].
  rewrite runAll_body_forget, IH. reflexivity.
Qed.

End Suite.

(** C4: the suite status is [pass] exactly when every result is [pass]; a
    [fail] or [error] among the results makes it [error], never [fail]; and
    once the loop holds [error] it holds it to the end. *)
Theorem suite_status host tests cwd w :
  (exists report w' earlier,
     runAll host tests cwd w = (Normal tt, w') /\
     trace w' = SetOutputResult report :: earlier /\
     Forall2 (produced host cwd) tests (SuiteReport.tests report) /\
     (SuiteReport.status report = pass <->
        Forall (fun r => TestResult.status r = pass) (SuiteReport.tests report)) /\
     (Exists (fun r => TestResult.status r = fail \/ TestResult.status r = error)
             (SuiteReport.tests report) ->
        SuiteReport.status report = error) /\
     SuiteReport.status report <> fail) /\
  (forall rest v w0,
     Totals.status v = error ->
     exists v' w0',
       for_of rest (runAll_body host cwd (feedback_dir host)) (v, w0) = (Normal tt, (v', w0')) /\
       Totals.status v' = error).
Proof.
  split.
  - destruct (runAll_loop_spec host tests cwd w)
      as (v & wl & Hloop & Hprod & _ & _ & _ & Hst & Hmono & _).
    do 3 eexists. split; [exact (runAll_eq host _ _ _ _ _ Hloop)|].
    split; [reflexivity|]. cbn.
    split; [exact Hprod|]. split; [exact Hst|]. split.
    + intros Hex. destruct Hmono as [Hp|He]; [|exact He].
      apply Hst in Hp. apply Exists_exists in Hex as (r & Hin & Hr).
      rewrite Forall_forall in Hp. specialize (Hp r Hin).
      destruct Hr as [Hr|Hr]; congruence.
    + destruct Hmono as [->| ->]; discriminate.
  - intros rest v w0 Hv.
    destruct (loop_spec host cwd rest v w0)
      as (v' & w0' & rs & Hloop & _ & _ & _ & _ & _ & _ & Hmono & _).
    exists v', w0'. split; [exact Hloop|]. destruct Hmono; congruence.
Qed.

(** C8: [max_score] is the sum of the declared points; a spec without points
    leaves both running totals alone; the report holds one result per spec,
    in the order of the specs. *)
Theorem suite_totals host tests cwd w :
  (exists report w' earlier,
     runAll host tests cwd w = (Normal tt, w') /\
     trace w' = SetOutputResult report :: earlier /\
     SuiteReport.max_score report = Zsum (omap Test.points tests) /\
     length (SuiteReport.tests report) = length tests /\
     Forall2 (fun t r => TestResult.name r = Test.name t /\ produced host cwd t r)
             tests (SuiteReport.tests report)) /\
  (forall dir t v w0,
     Test.points t = None ->
     exists v' w0',
       runAll_body host cwd dir t (v, w0) = (Normal tt, (v', w0')) /\
       Totals.accumulatedPoints v' = Totals.accumulatedPoints v /\
       Totals.availablePoints v' = Totals.availablePoints v).
Proof.
  split.
  - destruct (runAll_loop_spec host tests cwd w)
      as (v & wl & Hloop & Hprod & Hav & _).
    do 3 eexists. split; [exact (runAll_eq host _ _ _ _ _ Hloop)|].
    split; [reflexivity|]. cbn.
    split; [exact Hav|]. split.
    + symmetry. exact (Forall2_length _ _ _ Hprod).
    + eapply Forall2_impl; [exact Hprod|].
      intros t r Hp. split; [|exact Hp].
      destruct Hp as (wi & wi' & Hr). exact (runTest_name host _ _ _ _ _ _ Hr).
  - intros dir t v w0 Hp.
    destruct (runAll_body_spec host cwd dir t v w0)
      as (r & w1 & vb & wb & _ & Hb & _ & Hav & Hacc & _).
    exists vb, wb. split; [exact Hb|].
    unfold earned in Hacc. rewrite Hp in Hav, Hacc. cbn in Hav, Hacc. lia.
Qed.

(** C9: points declared as [0] count as no points: the score is null, the
    whole run is the same as with the field taken away, and when no spec has
    non-zero points both totals stay [0] and no points summary is published. *)
Theorem zero_points_as_none host :
  (forall t cwd dir w,
     Test.points t = Some 0%Z ->
     runTest host t cwd dir w = runTest host (forget_zero_points t) cwd dir w /\
     exists r w', runTest host t cwd dir w = (Normal r, w') /\ TestResult.score r = None) /\
  (forall tests cwd w,
     runAll host (map forget_zero_points tests) cwd w = runAll host tests cwd w) /\
  (forall tests cwd w,
     Forall (fun t => Test.points t = None \/ Test.points t = Some 0%Z) tests ->
     exists v wl,
       runAll_loop host tests cwd (Totals_init, w) = (Normal tt, (v, wl)) /\
       Totals.hasPoints v = false /\
       Totals.availablePoints v = 0%Z /\
       Totals.accumulatedPoints v = 0%Z /\
       runAll host tests cwd w = (Normal tt, record (SetOutputResult (results_of v)) wl) /\
       summaries (record (SetOutputResult (results_of v)) wl) = summaries w).
Proof.
  split; [|split].
  - intros t cwd dir w Hp. split; [now rewrite runTest_forget|].
    destruct (runTest_returns host t cwd dir w) as (r & w' & Hr).
    exists r, w'. split; [exact Hr|].
    apply (runTest_score_null host _ _ _ _ _ _ (or_intror Hp) Hr).
  - intros tests cwd w. unfold runAll, with_locals, runAll_loop.
    unfold bind at 2 4. cbn. now rewrite for_of_forget.
  - intros tests cwd w Hall.
    destruct (runAll_loop_spec host tests cwd w)
      as (v & wl & Hloop & Hprod & Hav & Hacc & Hhas & _ & _ & Hsum).
    assert (Hnone : existsb (fun t => Js.truthy_num (Test.points t)) tests = false).
    { clear -Hall. induction Hall as [|t tests [Hp|Hp] _ IH]; cbn; [reflexivity| |];
        rewrite Hp; exact IH. }
    assert (Hzero : Zsum (omap Test.points tests) = 0%Z).
    { clear -Hall. induction Hall as [|t tests [Hp|Hp] _ IH];
        [reflexivity| |]; rewrite Zsum_omap_cons, Hp, IH; reflexivity. }
    assert (Hearn : forall rs, Zsum (zip_with earned tests rs) = 0%Z).
    { clear -Hall. induction Hall as [|t tests [Hp|Hp] _ IH]; intros [|r rs];
        try reflexivity;
        change (Zsum (zip_with earned (t :: tests) (r :: rs)))
          with (earned t r + Zsum (zip_with earned tests rs))%Z;
        unfold earned; rewrite Hp, IH; reflexivity. }
    exists v, wl. split; [exact Hloop|].
    split; [congruence|]. split; [congruence|]. split; [rewrite Hacc; apply Hearn|].
    rewrite (runAll_eq host _ _ _ _ _ Hloop), Hhas, Hnone.
    split; [reflexivity|exact Hsum].
Qed.

(** ** The definitions at work on the scripted host *)

Example includes_hello_world : Js.includes "hello world" "world" = true.
Proof. reflexivity. Qed.

Example includes_hello_not_world : Js.includes "hello" "world" = false.
Proof. reflexivity. Qed.

Example trim_both_ends : Js.trim (" hi" +:+ Demo.LF) = "hi".
Proof. reflexivity. Qed.

(** A suite of two tests worth ten points each.  The second prints the right
    output but writes no feedback: it ends in [error], so does the suite, and
    the points published are still twenty out of twenty. *)
Example suite_of_two :
  exists report earlier,
    trace (snd (runAll Demo.host [Demo.passing; Demo.silent] Demo.cwd Demo.world0))
    = SetOutputResult report :: CheckRunOutput 20 20 :: SetOutputPoints 20 20
      :: SetFailed "Failed to run test 'no feedback'" :: earlier /\
    SuiteReport.status report = error /\
    SuiteReport.max_score report = 20%Z /\
    map TestResult.status (SuiteReport.tests report) = [pass; error].
Proof. do 2 eexists. split; [vm_compute; reflexivity|]. repeat split. Qed.

Example zero_pointed_run :
  fst (runTest Demo.host Demo.zero_pointed Demo.cwd Demo.feedbackDir Demo.world0)
  = Normal {| TestResult.name := "greets"; TestResult.status := pass;
              TestResult.err_message := None;
              TestResult.content := Some ("ok" +:+ Demo.LF);
              TestResult.test_code := "echo hi; echo ok > $AUTOGRADING_FEEDBACK <stdin>";
              TestResult.filename := ""; TestResult.line_no := 0;
              TestResult.execution_time := Some 5%Z;
              TestResult.score := None |}.
Proof. vm_compute. reflexivity. Qed.

Example broken_setup_run :
  fst (runTest Demo.host Demo.broken_setup Demo.cwd Demo.feedbackDir Demo.world0)
  = Normal {| TestResult.name := "needs setup"; TestResult.status := error;
              TestResult.err_message := Some "Command failed: exit 1";
              TestResult.content := None;
              TestResult.test_code := "echo hi; echo ok > $AUTOGRADING_FEEDBACK <stdin>";
              TestResult.filename := ""; TestResult.line_no := 0;
              TestResult.execution_time := None;
              TestResult.score := Some 10%Z |}.
Proof. vm_compute. reflexivity. Qed.

(** The run command of [Demo.bad_pattern] returns and leaves an empty
    feedback file; then [new RegExp] throws: nothing is read, the file stays. *)
Example bad_pattern_run :
  let path := feedback_path Demo.host Demo.feedbackDir Demo.world0 in
  let req := run_call Demo.bad_pattern Demo.cwd (1 * 60 * 1000)%Q path in
  files (spawned Demo.host req (drawn Demo.host Demo.world0)) !! path = Some "" /\
  fst (runTest Demo.host Demo.bad_pattern Demo.cwd Demo.feedbackDir Demo.world0)
  = Normal {| TestResult.name := "bad pattern"; TestResult.status := error;
              TestResult.err_message
                := Some "Invalid regular expression: /(/: Unterminated group";
              TestResult.content := None;
              TestResult.test_code := "echo hi; : > $AUTOGRADING_FEEDBACK <stdin>";
              TestResult.filename := ""; TestResult.line_no := 0;
              TestResult.execution_time := Some 5%Z;
              TestResult.score := Some 10%Z |} /\
  trace (snd (runTest Demo.host Demo.bad_pattern Demo.cwd Demo.feedbackDir Demo.world0))
  = [Spawned req] /\
  files (snd (runTest Demo.host Demo.bad_pattern Demo.cwd Demo.feedbackDir Demo.world0)) !! path
  = Some "".
Proof. repeat split; vm_compute; reflexivity. Qed.

(** A script that fails by itself with a network error. *)
Example fetch_run :
  let req := mkSpawn "node fetch.js" Demo.cwd (Some "") 60000%Q (Some "/tmp/feedback.md") in
  exit (process Demo.host req Demo.world0)
  = Failed ("Command failed: node fetch.js" +:+ Demo.LF
            +:+ "Error: connect ETIMEDOUT 10.0.0.1:443") /\
  fst (executeTest Demo.host "node fetch.js" "" 60000%Q Demo.cwd "/tmp/feedback.md" Demo.world0)
  = Normal (Outcome.mk None (Some "Command was killed due to timeout")).
Proof. split; vm_compute; reflexivity. Qed.

(** ** Inputs at which the wording of the specification fails *)

(** C1, as the specification words it, fails twice.  Points declared as [0] give a null score on
    [pass], not [0]; and a test whose setup command fails ends with status
    [error] and its full points as score. *)
Lemma score_claim_fails :
  ~ (forall host test cwd dir w res w' P,
       Test.points test = Some P ->
       runTest host test cwd dir w = (Normal res, w') ->
       TestResult.status res = pass ->
       TestResult.score res = Some P) /\
  ~ (forall host test cwd dir w res w' P,
       Test.points test = Some P -> P <> 0%Z ->
       runTest host test cwd dir w = (Normal res, w') ->
       TestResult.status res = error ->
       TestResult.score res = Some 0%Z).
Proof.
  split; intros H.
  - destruct (runTest_returns Demo.host Demo.zero_pointed Demo.cwd Demo.feedbackDir Demo.world0)
      as (r & w' & Hrun).
    pose proof zero_pointed_run as Hr. rewrite Hrun in Hr. injection Hr as ->.
    specialize (H Demo.host Demo.zero_pointed _ _ _ _ _ 0%Z eq_refl Hrun eq_refl).
    discriminate H.
  - destruct (runTest_returns Demo.host Demo.broken_setup Demo.cwd Demo.feedbackDir Demo.world0)
      as (r & w' & Hrun).
    pose proof broken_setup_run as Hr. rewrite Hrun in Hr. injection Hr as ->.
    assert (Hnz : 10%Z <> 0%Z) by discriminate.
    specialize (H Demo.host Demo.broken_setup _ _ _ _ _ 10%Z eq_refl Hnz Hrun eq_refl).
    discriminate H.
Qed.

(** C2, as the specification words it, fails: when the expected output is not a valid regular
    expression the comparison throws after the run command has returned, and
    the feedback file is never read. *)
Lemma feedback_not_always_read :
  ~ (forall host test cwd dir w budget w1 r w2,
       after_setup host test cwd w = (Normal budget, w1) ->
       executeTest host (Test.run test) (Js.or_empty (Test.input test)) budget cwd
                   (feedback_path host dir w1) (drawn host w1) = (Normal r, w2) ->
       exists res w',
         runTest host test cwd dir w = (Normal res, w') /\
         In (ReadFile (feedback_path host dir w1)) (trace w')).
Proof.
  intros H.
  pose proof (after_setup_absent Demo.host Demo.bad_pattern Demo.cwd Demo.world0 eq_refl)
    as Hsetup.
  destruct (executeTest_returns Demo.host (Test.run Demo.bad_pattern)
              (Js.or_empty (Test.input Demo.bad_pattern))
              (Test.timeout Demo.bad_pattern * 60 * 1000)%Q Demo.cwd
              (feedback_path Demo.host Demo.feedbackDir Demo.world0)
              (drawn Demo.host Demo.world0)) as (r & Hexec).
  destruct (H _ _ _ _ _ _ _ _ _ Hsetup Hexec) as (res & w' & Hrun & Hin).
  destruct bad_pattern_run as (_ & _ & Htrace & _).
  rewrite Hrun in Htrace. cbn [snd] in Htrace. rewrite Htrace in Hin.
  destruct Hin as [Hin|[]]. discriminate Hin.
Qed.

(** C5, as the specification words it, fails: a command that fails on its own with [ETIMEDOUT] in
    its message is not a timeout of the harness, yet its message is replaced
    by the timeout text. *)
Lemma failure_message_not_always_kept :
  ~ (forall host command input timeout cwd file w msg,
       exit (process host (mkSpawn command cwd (Some input) timeout (Some file)) w)
         = Failed msg ->
       exists w',
         executeTest host command input timeout cwd file w
           = (Normal (Outcome.mk None (Some msg)), w')).
Proof.
  intros H.
  destruct fetch_run as (Hexit & Hout).
  destruct (H _ _ _ _ _ _ _ _ Hexit) as (w' & Hrun).
  rewrite Hrun in Hout. discriminate Hout.
Qed.

(** C10, as the specification words it, fails: with an expected output that is not a valid regular
    expression the comparison throws, and the empty feedback file stays on
    disk. *)
Lemma empty_feedback_left_behind :
  ~ (forall host test cwd dir w budget w1 r w2,
       after_setup host test cwd w = (Normal budget, w1) ->
       executeTest host (Test.run test) (Js.or_empty (Test.input test)) budget cwd
                   (feedback_path host dir w1) (drawn host w1) = (Normal r, w2) ->
       files w2 !! feedback_path host dir w1 = Some "" ->
       exists res w',
         runTest host test cwd dir w = (Normal res, w') /\
         TestResult.content res = None /\
         files w' !! feedback_path host dir w1 = None).
Proof.
  intros H.
  pose proof (after_setup_absent Demo.host Demo.bad_pattern Demo.cwd Demo.world0 eq_refl)
    as Hsetup.
  destruct (executeTest_returns Demo.host (Test.run Demo.bad_pattern)
              (Js.or_empty (Test.input Demo.bad_pattern))
              (Test.timeout Demo.bad_pattern * 60 * 1000)%Q Demo.cwd
              (feedback_path Demo.host Demo.feedbackDir Demo.world0)
              (drawn Demo.host Demo.world0)) as (r & Hexec).
  destruct bad_pattern_run as (Hfile & _ & _ & Hstays).
  destruct (H _ _ _ _ _ _ _ _ _ Hsetup Hexec Hfile) as (res & w' & Hrun & _ & Hgone).
  rewrite Hrun in Hstays. cbn [snd] in Hstays. congruence.
Qed.

(** ** The theorems applied on the scripted host *)

Example passing_run :
  fst (runTest Demo.host Demo.passing Demo.cwd Demo.feedbackDir Demo.world0)
  = Normal {| TestResult.name := "greets"; TestResult.status := pass;
              TestResult.err_message := None;
              TestResult.content := Some ("ok" +:+ Demo.LF);
              TestResult.test_code := "echo hi; echo ok > $AUTOGRADING_FEEDBACK <stdin>";
              TestResult.filename := ""; TestResult.line_no := 0;
              TestResult.execution_time := Some 5%Z;
              TestResult.score := Some 10%Z |}.
Proof. vm_compute. reflexivity. Qed.

(** C1 at [Demo.passing]: ten points declared, status [pass], score ten. *)
Lemma score_follows_status_witness :
  exists res w',
    runTest Demo.host Demo.passing Demo.cwd Demo.feedbackDir Demo.world0 = (Normal res, w') /\
    TestResult.status res = pass /\
    TestResult.score res = Some 10%Z.
Proof.
  destruct (runTest_returns Demo.host Demo.passing Demo.cwd Demo.feedbackDir Demo.world0)
    as (res & w' & Hrun).
  assert (Hpass : TestResult.status res = pass).
  { pose proof passing_run as Hr. rewrite Hrun in Hr. injection Hr as ->. reflexivity. }
  exists res, w'. split; [exact Hrun|]. split; [exact Hpass|].
  destruct (score_follows_status Demo.host Demo.passing _ _ _ _ _ Hrun) as [H _].
  assert (Hnz : 10%Z <> 0%Z) by discriminate.
  destruct (H 10%Z eq_refl Hnz) as (Hp & _). exact (Hp Hpass).
Defined.

(** C2 at [Demo.silent]: the command prints the expected [hi] and exits with
    status 0 but writes no feedback; the result is an [error] that carries
    the message of the failed read. *)
Lemma feedback_read_failure_overrides_witness :
  exists res w',
    runTest Demo.host Demo.silent Demo.cwd Demo.feedbackDir Demo.world0 = (Normal res, w') /\
    TestResult.status res = error /\
    TestResult.err_message res
      = Some (ENOENT_message "open" (feedback_path Demo.host Demo.feedbackDir Demo.world0)).
Proof.
  pose proof (after_setup_absent Demo.host Demo.silent Demo.cwd Demo.world0 eq_refl) as Hsetup.
  pose proof (executeTest_eq Demo.host (Test.run Demo.silent)
                (Js.or_empty (Test.input Demo.silent))
                (Test.timeout Demo.silent * 60 * 1000)%Q Demo.cwd
                (feedback_path Demo.host Demo.feedbackDir Demo.world0)
                (drawn Demo.host Demo.world0)) as Hexec.
  cbv zeta in Hexec.
  destruct (feedback_read_failure_overrides _ _ _ _ _ _ _ _ _ Hsetup Hexec)
    as (res & w' & later & Hrun & _ & Hmissing).
  { right. exists true. vm_compute. reflexivity. }
  destruct Hmissing as (_ & Hst & Hmsg); [vm_compute; reflexivity|].
  exists res, w'. split; [exact Hrun|]. split; [exact Hst|exact Hmsg].
Defined.

(** C3 on the scripted engine: an unknown method throws, a pattern that
    compiles gives a boolean. *)
Lemma compareOutput_modes_witness :
  compareOutput Demo.host "hi" "hi" "fuzzy"
    = Throw (mkError "Invalid comparison method: fuzzy") /\
  exists same, compareOutput Demo.host "abc" "b" "regex" = Normal same.
Proof.
  split.
  - destruct (compareOutput_modes Demo.host "hi" "hi") as (_ & _ & _ & _ & H).
    apply H; discriminate.
  - destruct (compareOutput_modes Demo.host "abc" "b") as (_ & _ & _ & H & _).
    apply (H "b"). reflexivity.
Defined.

(** C4 on a suite whose second test fails in its setup command, and on a
    loop that starts from totals already in [error]. *)
Lemma suite_status_witness :
  (exists report w' earlier,
     runAll Demo.host [Demo.passing; Demo.broken_setup] Demo.cwd Demo.world0 = (Normal tt, w') /\
     trace w' = SetOutputResult report :: earlier /\
     SuiteReport.status report = error) /\
  (exists v' w',
     for_of [Demo.passing] (runAll_body Demo.host Demo.cwd (feedback_dir Demo.host))
            (Demo.failed_totals, Demo.world0) = (Normal tt, (v', w')) /\
     Totals.status v' = error).
Proof.
  split.
  - destruct (suite_status Demo.host [Demo.passing; Demo.broken_setup] Demo.cwd Demo.world0)
      as [(report & w' & earlier & Hrun & Htrace & _ & _ & Hex & _) _].
    exists report, w', earlier. split; [exact Hrun|]. split; [exact Htrace|].
    apply Hex.
    assert (Hst : match trace (snd (runAll Demo.host [Demo.passing; Demo.broken_setup]
                                           Demo.cwd Demo.world0)) with
                  | SetOutputResult r :: _ => map TestResult.status (SuiteReport.tests r)
                  | _ => []
                  end = [pass; error]) by (vm_compute; reflexivity).
    rewrite Hrun in Hst. cbn [snd] in Hst. rewrite Htrace in Hst.
    destruct (SuiteReport.tests report) as [|r1 [|r2 rest]]; try discriminate Hst.
    injection Hst as _ H2 _.
    apply Exists_cons_tl, Exists_cons_hd. right. exact H2.
  - apply (proj2 (suite_status Demo.host [] Demo.cwd Demo.world0)). reflexivity.
Defined.

(** C5 on the scripted shell: a timeout, a plain failure and a success. *)
Lemma executeTest_outcome_witness :
  fst (executeTest Demo.host "sleep 1000" "" 600%Q Demo.cwd "/tmp/feedback.md" Demo.world0)
    = Normal (Outcome.mk None (Some "Command was killed due to timeout")) /\
  fst (executeTest Demo.host "exit 1" "" 600%Q Demo.cwd "/tmp/feedback.md" Demo.world0)
    = Normal (Outcome.mk None (Some "Command failed: exit 1")) /\
  fst (executeTest Demo.host "node fetch.js" "" 600%Q Demo.cwd "/tmp/feedback.md" Demo.world0)
    = Normal (Outcome.mk None (Some "Command was killed due to timeout")) /\
  fst (executeTest Demo.host "echo hi" "" 600%Q Demo.cwd "/tmp/feedback.md" Demo.world0)
    = Normal (Outcome.mk (Some "hi") None).
Proof.
  split; [|split; [|split]].
  - destruct (executeTest_outcome Demo.host "sleep 1000" "" 600%Q Demo.cwd "/tmp/feedback.md"
                Demo.world0) as (r & Hrun & _ & _ & H & _).
    rewrite Hrun. cbn [fst]. f_equal. apply H. vm_compute. reflexivity.
  - destruct (executeTest_outcome Demo.host "exit 1" "" 600%Q Demo.cwd "/tmp/feedback.md"
                Demo.world0) as (r & Hrun & _ & _ & _ & _ & H).
    rewrite Hrun. cbn [fst]. f_equal.
    apply (H "Command failed: exit 1"); vm_compute; reflexivity.
  - destruct (executeTest_outcome Demo.host "node fetch.js" "" 600%Q Demo.cwd
                "/tmp/feedback.md" Demo.world0) as (r & Hrun & _ & _ & _ & H & _).
    rewrite Hrun. cbn [fst]. f_equal.
    apply (H ("Command failed: node fetch.js" +:+ Demo.LF
              +:+ "Error: connect ETIMEDOUT 10.0.0.1:443")); vm_compute; reflexivity.
  - destruct (executeTest_outcome Demo.host "echo hi" "" 600%Q Demo.cwd "/tmp/feedback.md"
                Demo.world0) as (r & Hrun & _ & H & _).
    rewrite Hrun. cbn [fst]. f_equal.
    apply (H ("hi" +:+ Demo.LF)). vm_compute. reflexivity.
Defined.


(** C7 at [Demo.broken_setup]: the setup command exits with status 1. *)
Lemma setup_failure_aborts_witness :
  exists r,
    runTest Demo.host Demo.broken_setup Demo.cwd Demo.feedbackDir Demo.world0
      = (Normal r, spawned Demo.host (setup_call Demo.broken_setup Demo.cwd) Demo.world0) /\
    TestResult.status r = error /\
    TestResult.err_message r = Some "Command failed: exit 1" /\
    TestResult.content r = None.
Proof.
  assert (Hsetup : Test.setup Demo.broken_setup <> "") by discriminate.
  destruct (setup_failure_aborts Demo.host Demo.broken_setup Demo.cwd Demo.feedbackDir
              Demo.world0 (mkError "Command failed: exit 1") Hsetup)
    as (r & Hrun & _ & _ & Hst & Hmsg & Hcontent & _).
  { vm_compute. reflexivity. }
  exists r. auto.
Defined.

(** C8 at [Demo.unpointed]: a round of the loop on a spec without points. *)
Lemma suite_totals_witness :
  exists v' w',
    runAll_body Demo.host Demo.cwd Demo.feedbackDir Demo.unpointed (Totals_init, Demo.world0)
      = (Normal tt, (v', w')) /\
    Totals.accumulatedPoints v' = 0%Z /\
    Totals.availablePoints v' = 0%Z.
Proof.
  apply (proj2 (suite_totals Demo.host [] Demo.cwd Demo.world0)). reflexivity.
Defined.

(** C9 at [Demo.zero_pointed], alone in its suite. *)
Lemma zero_points_as_none_witness :
  (exists r w',
     runTest Demo.host Demo.zero_pointed Demo.cwd Demo.feedbackDir Demo.world0 = (Normal r, w') /\
     TestResult.score r = None) /\
  (exists v wl,
     runAll_loop Demo.host [Demo.zero_pointed] Demo.cwd (Totals_init, Demo.world0)
       = (Normal tt, (v, wl)) /\
     Totals.hasPoints v = false /\
     Totals.availablePoints v = 0%Z /\
     Totals.accumulatedPoints v = 0%Z /\
     runAll Demo.host [Demo.zero_pointed] Demo.cwd Demo.world0
       = (Normal tt, record (SetOutputResult (results_of v)) wl) /\
     summaries (record (SetOutputResult (results_of v)) wl) = summaries Demo.world0).
Proof.
  destruct (zero_points_as_none Demo.host) as (H1 & _ & H3).
  split.
  - apply (H1 Demo.zero_pointed Demo.cwd Demo.feedbackDir Demo.world0). reflexivity.
  - apply H3. constructor; [right; reflexivity|constructor].
Defined.

(** C10 at [Demo.empty_feedback]: the file is empty, the content null, and
    the file is gone afterwards. *)
Lemma empty_feedback_is_null_witness :
  exists res w',
    runTest Demo.host Demo.empty_feedback Demo.cwd Demo.feedbackDir Demo.world0
      = (Normal res, w') /\
    TestResult.content res = None /\
    files w' !! feedback_path Demo.host Demo.feedbackDir Demo.world0 = None.
Proof.
  pose proof (after_setup_absent Demo.host Demo.empty_feedback Demo.cwd Demo.world0 eq_refl)
    as Hsetup.
  pose proof (executeTest_eq Demo.host (Test.run Demo.empty_feedback)
                (Js.or_empty (Test.input Demo.empty_feedback))
                (Test.timeout Demo.empty_feedback * 60 * 1000)%Q Demo.cwd
                (feedback_path Demo.host Demo.feedbackDir Demo.world0)
                (drawn Demo.host Demo.world0)) as Hexec.
  cbv zeta in Hexec.
  destruct (empty_feedback_is_null _ _ _ _ _ _ _ _ _ Hsetup Hexec)
    as (res & w' & Hrun & Hcontent & _ & Hgone).
  { right. exists true. vm_compute. reflexivity. }
  { vm_compute. reflexivity. }
  exists res, w'. split; [exact Hrun|]. split; [exact Hcontent|exact Hgone].
Defined.

(** * Further properties *)

(** ** The result of [runTest], stage by stage *)

(** Every way through [runTest]: the setup command threw; or the run command
    was started, and then it failed, or the comparison threw, or the output
    differed, or it matched; and then the feedback file was there or not.
    The result and the final world are written out in each case. *)
Ltac runTest_cases Hrun :=
  match type of Hrun with
  | runTest ?host ?test ?cwd ?dir ?w = _ =>
      destruct (after_setup host test cwd w) as [[budget|e] w1] eqn:Hsetup;
      [ destruct (executeTest_returns host (Test.run test) (Js.or_empty (Test.input test))
                    budget cwd (feedback_path host dir w1) (drawn host w1)) as [r Hexec];
        rewrite runTest_eq, runTest_try_eq, Hsetup in Hrun; cbn zeta in Hrun;
        unfold bind in Hrun;
        match type of Hrun with
        | context [run_step ?h ?t ?c ?p (?v, ?w0)] =>
            rewrite (run_step_eq h t c p v w0 _ _ Hexec) in Hrun
        end;
        cbn zeta in Hrun;
        destruct (Js.truthy (Outcome.error r)) eqn:Htruthy;
        [| destruct (compareOutput host (Js.or_empty (Outcome.output r))
                       (Js.or_empty (Test.output test)) (Test.comparison test))
             as [[|]|thrown] eqn:Hcmp ];
        cbn [negb] in Hrun; rewrite ?feedback_step_eq in Hrun;
        try match type of Hrun with
            | context [files ?w2 !! ?p] => destruct (files w2 !! p) as [found|] eqn:Hfile
            end;
        injection Hrun as <- <-
      | rewrite runTest_eq, runTest_try_eq, Hsetup in Hrun; injection Hrun as <- <- ]
  end.

(** X1: [err_message] is null exactly when the status is [pass]. *)
Theorem err_message_null_iff_pass host test cwd dir w res w' :
  runTest host test cwd dir w = (Normal res, w') ->
  (TestResult.err_message res = None <-> TestResult.status res = pass).
Proof.
  intros Hrun. runTest_cases Hrun; cbn.
  all: try (split; [discriminate|discriminate]).
  all: try (split; reflexivity).
  all: apply truthy_is_Some in Htruthy as (x & -> & _); split; discriminate.
Qed.

Ltac result_simpl :=
  cbn [TestResult.status TestResult.err_message TestResult.content TestResult.score
       TestResult.execution_time TestResult.name TestResult.test_code result_of
       Vars.status Vars.err_message Vars.score Vars.feedback Vars.execution_time Vars.timeout
       Vars.set_status Vars.set_err_message Vars.set_score Vars.set_feedback
       Vars.set_execution_time Vars.set_timeout Vars_init fst snd] in *.

(** Two descriptions of the same run agree. *)
Ltac same_run Hexec :=
  match goal with
  | Hs : (_, _) = (Normal _, _) |- _ => injection Hs as <- <-
  | Hs : (Throw _, _) = (Normal _, _) |- _ => discriminate Hs
  end;
  match goal with
  | He : executeTest _ _ _ _ _ _ _ = (Normal _, _) |- _ =>
      tryif constr_eq He Hexec then fail else (rewrite Hexec in He; injection He as <- <-)
  end.

(** X2: the status is [pass] exactly when the setup did not throw, the run
    command returned output, [compareOutput] returned [true] and the feedback
    file was there to be read. *)
Theorem pass_iff host test cwd dir w res w' :
  runTest host test cwd dir w = (Normal res, w') ->
  (TestResult.status res = pass <->
   exists budget w1 r w2,
     after_setup host test cwd w = (Normal budget, w1) /\
     executeTest host (Test.run test) (Js.or_empty (Test.input test)) budget cwd
                 (feedback_path host dir w1) (drawn host w1) = (Normal r, w2) /\
     Js.truthy (Outcome.error r) = false /\
     compareOutput host (Js.or_empty (Outcome.output r)) (Js.or_empty (Test.output test))
                   (Test.comparison test) = Normal true /\
     is_Some (files w2 !! feedback_path host dir w1)).
Proof.
  intros Hrun. runTest_cases Hrun; result_simpl.
  all: split;
    [ first [ discriminate
            | intros _; exists budget, w1, r; eexists;
              split; [reflexivity|]; split; [exact Hexec|]; rewrite ?Hfile; eauto ]
    | intros (b' & w1' & r' & w2' & Hs' & He' & Ht' & Hc' & Hf');
      first [ discriminate Hs'
            | same_run Hexec; rewrite ?Hfile in Hf';
              first [ reflexivity | congruence | destruct Hf'; discriminate ] ] ].
Qed.


(** X4: [execution_time] is the wall-clock time of the run command alone, and
    it is recorded as soon as that command has returned, whatever happens
    afterwards; it stays unset only when the setup command threw. *)
Theorem execution_time_measures_run host test cwd dir w res w' :
  runTest host test cwd dir w = (Normal res, w') ->
  match after_setup host test cwd w with
  | (Throw _, _) => TestResult.execution_time res = None
  | (Normal budget, w1) =>
      TestResult.execution_time res
      = Some (elapsed (process host (run_call test cwd budget (feedback_path host dir w1))
                               (drawn host w1)))
  end.
Proof.
  intros Hrun. runTest_cases Hrun; result_simpl; try reflexivity.
  all: f_equal; cbn; apply Z.add_simpl_l.
Qed.

Lemma or_null_Some_iff s t : Js.or_null s = Some t <-> s = Some t /\ t <> "".
Proof.
  unfold Js.or_null, Js.truthy. destruct s as [x|]; [|split; [discriminate|intros [? _]; discriminate]].
  destruct (String.eqb_spec x ""); cbn; split.
  - discriminate.
  - intros [H Hne]. injection H as ->. contradiction.
  - intros H. injection H as ->. auto.
  - intros [H _]. exact H.
Qed.

(** X5: the result carries feedback exactly when the run phase was reached,
    the comparison stage came to a verdict and the run command left a
    non-empty feedback file: the content is then that file's text. *)
Theorem content_iff host test cwd dir w res w' text :
  runTest host test cwd dir w = (Normal res, w') ->
  (TestResult.content res = Some text <->
   exists budget w1 r w2,
     after_setup host test cwd w = (Normal budget, w1) /\
     executeTest host (Test.run test) (Js.or_empty (Test.input test)) budget cwd
                 (feedback_path host dir w1) (drawn host w1) = (Normal r, w2) /\
     compare_returns host test r /\
     files w2 !! feedback_path host dir w1 = Some text /\
     text <> "").
Proof.
  intros Hrun. runTest_cases Hrun; result_simpl.
  all: rewrite ?or_null_Some_iff.
  all: split;
    [ first [ discriminate
            | intros [Heq _]; discriminate Heq
            | intros [Heq Hne]; injection Heq as ->;
              exists budget, w1, r; eexists;
              split; [reflexivity|]; split; [exact Hexec|];
              split; [first [left; exact Htruthy | right; eexists; exact Hcmp]|];
              split; [exact Hfile|exact Hne] ]
    | intros (b' & w1' & r' & w2' & Hs' & He' & Hc' & Hf' & Hne);
      first [ discriminate Hs'
            | same_run Hexec;
              first [ split; [congruence|exact Hne]
                    | congruence
                    | destruct Hc' as [Hc'|[same Hc']]; congruence ] ] ].
Qed.

(** X6: [runTest] itself changes no file but its feedback file: every other
    path holds what the last command that ran left there. *)
Theorem other_files_untouched host test cwd dir w res w' :
  runTest host test cwd dir w = (Normal res, w') ->
  match after_setup host test cwd w with
  | (Throw _, w1) => files w' = files w1
  | (Normal budget, w1) =>
      forall p,
        p <> feedback_path host dir w1 ->
        files w' !! p
        = files_after (process host (run_call test cwd budget (feedback_path host dir w1))
                               (drawn host w1)) !! p
  end.
Proof.
  intros Hrun. runTest_cases Hrun; try reflexivity.
  all: intros p Hp; cbn; rewrite ?lookup_delete_ne by congruence; reflexivity.
Qed.

Lemma after_setup_world host test cwd w c w1 :
  after_setup host test cwd w = (c, w1) ->
  (Test.setup test = "" /\ w1 = w) \/
  (Test.setup test <> "" /\ w1 = spawned host (setup_call test cwd) w).
Proof.
  destruct (String.eqb_spec (Test.setup test) "") as [Hs|Hs].
  - rewrite after_setup_absent by assumption. intros H. injection H as _ <-. auto.
  - rewrite after_setup_run by assumption. intros H. injection H as _ <-. auto.
Qed.

(** X7: one call of [runTest] starts at most two subprocesses, at most one
    when there is no setup command, and every file operation it makes is on
    the feedback path it drew. *)
Theorem at_most_two_commands host test cwd dir w res w' :
  runTest host test cwd dir w = (Normal res, w') ->
  exists later,
    trace w' = later ++ trace w /\
    length (List.filter is_spawn later) <= 2 /\
    (Test.setup test = "" -> length (List.filter is_spawn later) <= 1) /\
    Forall (concerns (feedback_path host dir w)) later.
Proof.
  intros Hrun. runTest_cases Hrun.
  all: destruct (after_setup_world _ _ _ _ _ _ Hsetup) as [[Hs ->]|[Hs ->]].
  all: eexists; split;
    [ cbn; first [ exact (eq_refl : _ = [] ++ _) | exact (eq_refl : _ = [_] ++ _)
                 | exact (eq_refl : _ = [_; _] ++ _) | exact (eq_refl : _ = [_; _; _] ++ _)
                 | exact (eq_refl : _ = [_; _; _; _] ++ _)
                 | exact (eq_refl : _ = [_; _; _; _; _] ++ _) ]
    | split; [cbn; lia|]; split; [intros; first [contradiction | cbn; lia]|];
      repeat constructor ].
Qed.

(** X8: when the run command fails, the expected output and the comparison
    method are not looked at: with any other pair of them the result and the
    final world are the same. *)
Theorem run_failure_ignores_expectation
        host test cwd dir w budget w1 r w2 output comparison :
  after_setup host test cwd w = (Normal budget, w1) ->
  executeTest host (Test.run test) (Js.or_empty (Test.input test)) budget cwd
              (feedback_path host dir w1) (drawn host w1) = (Normal r, w2) ->
  Js.truthy (Outcome.error r) = true ->
  runTest host (expecting output comparison test) cwd dir w = runTest host test cwd dir w.
Proof.
  intros Hsetup Hexec Htruthy.
  rewrite !runTest_eq, !runTest_try_eq.
  change (after_setup host (expecting output comparison test) cwd w)
    with (after_setup host test cwd w).
  rewrite Hsetup. cbn zeta. unfold bind.
  repeat match goal with
         | |- context [run_step ?h ?t ?c ?p (?v, ?w0)] =>
             rewrite (run_step_eq h t c p v w0 r w2 Hexec)
         end.
  cbn zeta. rewrite Htruthy. reflexivity.
Qed.

(** ** Captured output and comparison *)

Lemma length_append s t : String.length (s +:+ t) = String.length s + String.length t.
Proof. induction s as [|c s IH]; [reflexivity|]. rewrite append_cons. cbn. now rewrite IH. Qed.

Lemma append_assoc s t u : (s +:+ t) +:+ u = s +:+ t +:+ u.
Proof. induction s as [|c s IH]; [reflexivity|]. rewrite !append_cons. now rewrite IH. Qed.

Lemma append_empty_r s : s +:+ "" = s.
Proof. induction s as [|c s IH]; [reflexivity|]. rewrite append_cons. now rewrite IH. Qed.

Lemma length_zero s : String.length s = 0 -> s = "".
Proof. destruct s; [reflexivity|discriminate]. Qed.

Lemma append_inv_head s t u : s +:+ t = s +:+ u -> t = u.
Proof.
  induction s as [|c s IH]; [auto|]. rewrite !append_cons. intros H. injection H as H. auto.
Qed.

Lemma append_inv_tail s t u : s +:+ u = t +:+ u -> s = t.
Proof.
  revert t. induction s as [|c s IH]; intros [|d t] H.
  - reflexivity.
  - apply (f_equal String.length) in H.
    rewrite append_nil, append_cons in H. cbn in H. rewrite length_append in H. lia.
  - apply (f_equal String.length) in H.
    rewrite append_nil, append_cons in H. cbn in H. rewrite length_append in H. lia.
  - rewrite !append_cons in H. injection H as -> H. f_equal. auto.
Qed.








Lemma includes_refl s : Js.includes s s = true.
Proof. apply includes_spec. exists "", "". cbn. now rewrite append_empty_r. Qed.

Lemma includes_length s sub : Js.includes s sub = true -> String.length sub <= String.length s.
Proof.
  intros H. apply includes_spec in H as (pre & post & ->).
  rewrite !length_append. lia.
Qed.

(** X10: the three comparison modes are ordered.  Equal strings are also
    [included]; an empty expected output is [included] in every output; what
    is [included] is never longer than the output; inclusion composes; and
    two strings that include each other are equal. *)
Theorem included_between host a b c :
  (compareOutput host a b "exact" = Normal true ->
   compareOutput host a b "included" = Normal true) /\
  compareOutput host a "" "included" = Normal true /\
  (compareOutput host a b "included" = Normal true ->
   String.length b <= String.length a) /\
  (compareOutput host a b "included" = Normal true ->
   compareOutput host b c "included" = Normal true ->
   compareOutput host a c "included" = Normal true) /\
  (compareOutput host a b "included" = Normal true ->
   compareOutput host b a "included" = Normal true ->
   compareOutput host a b "exact" = Normal true).
Proof.
  unfold compareOutput; cbn [String.eqb Ascii.eqb Bool.eqb].
  repeat split.
  - intros H. injection H as H. apply String.eqb_eq in H as ->. f_equal. apply includes_refl.
  - f_equal. apply includes_spec. exists "", a. reflexivity.
  - intros H. injection H as H. now apply includes_length.
  - intros H1 H2. injection H1 as H1. injection H2 as H2. f_equal.
    apply includes_spec in H1 as (p1 & q1 & ->). apply includes_spec in H2 as (p2 & q2 & ->).
    apply includes_spec. exists (p1 +:+ p2), (q2 +:+ q1).
    now rewrite !append_assoc.
  - intros H1 H2. injection H1 as H1. injection H2 as H2. f_equal. apply String.eqb_eq.
    pose proof (includes_length _ _ H2) as Hlen.
    apply includes_spec in H1 as (p & q & ->).
    rewrite !length_append in Hlen.
    assert (p = "") as -> by (apply length_zero; lia).
    assert (q = "") as -> by (apply length_zero; lia).
    cbn. now rewrite append_empty_r.
Qed.

(** ** The transport encoding of the report *)

Example btoa_samples :
  btoa "" = "" /\ btoa "hi" = "aGk=" /\ btoa "pass" = "cGFzcw==" /\
  btoa "error!" = "ZXJyb3Ih" /\ btoa "Points 10/20" = "UG9pbnRzIDEwLzIw".
Proof. repeat split. Qed.

(** Induction over a list taken three elements at a time. *)
Lemma list_ind3 {A} (P : list A -> Prop) :
  P [] -> (forall a, P [a]) -> (forall a b, P [a; b]) ->
  (forall a b c rest, P rest -> P (a :: b :: c :: rest)) ->
  forall l, P l.
Proof.
  intros H0 H1 H2 H3 l.
  assert (H : P l /\ (forall a, P (a :: l)) /\ (forall a b, P (a :: b :: l))).
  { induction l as [|x l (IH0 & IH1 & IH2)]; [auto|].
    split; [apply IH1|]. split; [intros a; apply IH2|]. intros a b. apply H3, IH0. }
  apply H.
Qed.

Lemma value_digit n : n < 64 -> Base64.value (Base64.digit n) = Some n.
Proof.
  intros H. do 64 (destruct n as [|n]; [reflexivity|]). lia.
Qed.

Lemma digit_not_pad n : n < 64 -> Ascii.eqb (Base64.digit n) Base64.pad = false.
Proof.
  intros H. do 64 (destruct n as [|n]; [reflexivity|]). lia.
Qed.

Lemma pad_is_pad : Ascii.eqb Base64.pad Base64.pad = true.
Proof. reflexivity. Qed.

Ltac sextets :=
  repeat match goal with
         | |- _ /\ _ => split
         end;
  try (zify; Z.to_euclidean_division_equations; lia).

Lemma decode_encode bytes :
  Forall (fun b => b < 256) bytes -> Base64.decode (Base64.encode bytes) = Some bytes.
Proof.
  induction bytes as [|a|a b|a b c rest IH] using list_ind3; intros Hall.
  - reflexivity.
  - apply Forall_cons in Hall as [Ha _].
    cbn [Base64.encode Base64.decode]. rewrite !pad_is_pad.
    rewrite !value_digit by sextets. do 2 f_equal. sextets.
  - apply Forall_cons in Hall as [Ha Hall]. apply Forall_cons in Hall as [Hb _].
    cbn [Base64.encode Base64.decode]. rewrite pad_is_pad.
    rewrite digit_not_pad by sextets. rewrite !value_digit by sextets.
    do 2 f_equal; [|f_equal]; sextets.
  - apply Forall_cons in Hall as [Ha Hall]. apply Forall_cons in Hall as [Hb Hall].
    apply Forall_cons in Hall as [Hc Hall].
    cbn [Base64.encode Base64.decode].
    rewrite digit_not_pad by sextets. rewrite !value_digit by sextets.
    rewrite (IH Hall). do 2 f_equal; [|f_equal; [|f_equal]]; sextets.
Qed.

Lemma bytes_of_bounded s : Forall (fun b => b < 256) (Base64.bytes_of s).
Proof.
  unfold Base64.bytes_of. induction s as [|c s IH]; cbn; constructor; [|exact IH].
  apply nat_ascii_bounded.
Qed.

Lemma string_of_bytes_of s : Base64.string_of (Base64.bytes_of s) = s.
Proof.
  unfold Base64.string_of, Base64.bytes_of.
  induction s as [|c s IH]; cbn; [reflexivity|].
  rewrite ascii_nat_embedding. f_equal. exact IH.
Qed.

Lemma length_bytes_of s : length (Base64.bytes_of s) = String.length s.
Proof.
  unfold Base64.bytes_of. induction s as [|c s IH]; cbn; [reflexivity|]. now rewrite IH.
Qed.

Lemma length_encode bytes :
  String.length (Base64.encode bytes) = 4 * ((length bytes + 2) / 3).
Proof.
  induction bytes as [|a|a b|a b c rest IH] using list_ind3; try reflexivity.
  cbn [Base64.encode String.length length]. rewrite IH.
  zify; Z.to_euclidean_division_equations; lia.
Qed.

(** A character that may appear in base-64 text. *)
Lemma digit_or_pad_encode bytes :
  Forall (fun b => b < 256) bytes ->
  Forall (fun c => is_Some (Base64.value c) \/ c = Base64.pad)
         (list_ascii_of_string (Base64.encode bytes)).
Proof.
  assert (Hd : forall n, n < 64 -> is_Some (Base64.value (Base64.digit n)) \/
                                   Base64.digit n = Base64.pad).
  { intros n Hn. left. rewrite value_digit by exact Hn. eauto. }
  induction bytes as [|a|a b|a b c rest IH] using list_ind3; intros Hall.
  - constructor.
  - apply Forall_cons in Hall as [Ha _]. cbn [Base64.encode list_ascii_of_string].
    repeat (apply Forall_cons_2; [first [apply Hd; sextets | right; reflexivity]|]).
    apply Forall_nil_2.
  - apply Forall_cons in Hall as [Ha Hall]. apply Forall_cons in Hall as [Hb _].
    cbn [Base64.encode list_ascii_of_string].
    repeat (apply Forall_cons_2; [first [apply Hd; sextets | right; reflexivity]|]).
    apply Forall_nil_2.
  - apply Forall_cons in Hall as [Ha Hall]. apply Forall_cons in Hall as [Hb Hall].
    apply Forall_cons in Hall as [Hc Hall].
    cbn [Base64.encode list_ascii_of_string].
    repeat (apply Forall_cons_2; [apply Hd; sextets|]). exact (IH Hall).
Qed.

(** X11: [btoa] loses nothing: decoding gives the text back, so different
    texts have different encodings; the encoding is four characters for every
    three bytes, rounded up, and uses the 64 digits and [=] only. *)
Theorem btoa_reversible s t :
  atob (btoa s) = Some s /\
  (btoa s = btoa t -> s = t) /\
  String.length (btoa s) = 4 * ((String.length s + 2) / 3) /\
  Forall (fun c => is_Some (Base64.value c) \/ c = Base64.pad) (list_ascii_of_string (btoa s)).
Proof.
  assert (Hback : forall x, atob (btoa x) = Some x).
  { intros x. unfold atob, btoa. rewrite decode_encode by apply bytes_of_bounded.
    now rewrite string_of_bytes_of. }
  split; [apply Hback|]. split; [|split].
  - intros H. apply (f_equal atob) in H. rewrite !Hback in H. now injection H.
  - unfold btoa. now rewrite length_encode, length_bytes_of.
  - apply digit_or_pad_encode, bytes_of_bounded.
Qed.

(** ** What a suite sends out *)

Lemma seq_snoc n k : seq n (S k) = seq n k ++ [n + k].
Proof.
  replace (S k) with (k + 1) by lia. rewrite seq_app. reflexivity.
Qed.

(** What one test does to the failure signals, the uuid counter and the
    feedback paths handed out: no signal, and at most one fresh path. *)
Lemma runTest_effects host test cwd dir w res w' :
  runTest host test cwd dir w = (Normal res, w') ->
  failures w' = failures w /\
  exists k,
    k <= 1 /\
    uuids_drawn w' = uuids_drawn w + k /\
    feedback_envs w'
    = rev (map (path_at host dir) (seq (uuids_drawn w) k)) ++ feedback_envs w.
Proof.
  intros Hrun. runTest_cases Hrun.
  all: destruct (after_setup_world _ _ _ _ _ _ Hsetup) as [[Hs ->]|[Hs ->]].
  all: split; [reflexivity|].
  all: first [ exists 1; split; [lia|]; split; [cbn; lia|reflexivity]
             | exists 0; split; [lia|]; split; [cbn; lia|reflexivity] ].
Qed.

Lemma feedback_envs_signal m w : feedback_envs (record (SetFailed m) w) = feedback_envs w.
Proof. reflexivity. Qed.

Lemma failures_signal m w : failures (record (SetFailed m) w) = SetFailed m :: failures w.
Proof. reflexivity. Qed.

Lemma signals_cons t tests r rs :
  signals (t :: tests) (r :: rs)
  = (if bool_decide (TestResult.status r = pass) then [] else [signal t]) ++ signals tests rs.
Proof. reflexivity. Qed.

(** The same for the loop of [runAll]. *)
Lemma loop_effects host cwd dir tests :
  forall v w,
  exists v' w' rs k,
    for_of tests (runAll_body host cwd dir) (v, w) = (Normal tt, (v', w')) /\
    Totals.testResults v' = Totals.testResults v ++ rs /\
    length rs = length tests /\
    failures w' = rev (signals tests rs) ++ failures w /\
    k <= length tests /\
    uuids_drawn w' = uuids_drawn w + k /\
    feedback_envs w'
    = rev (map (path_at host dir) (seq (uuids_drawn w) k)) ++ feedback_envs w.
Proof.
  induction tests as [|t tests IH]; intros v w.
  - exists v, w, [], 0. cbn. rewrite app_nil_r. repeat split; lia.
  - destruct (runTest_returns host t cwd dir w) as (r & w1 & Hr).
    destruct (runTest_effects _ _ _ _ _ _ _ Hr) as (Hfail & k1 & Hk1 & Hcount & Henv).
    pose proof (runAll_body_eq host cwd dir t v w r w1 Hr) as Hbody. cbn zeta in Hbody.
    cbn [for_of]. unfold bind at 1. rewrite Hbody.
    destruct (bool_decide (TestResult.status r = pass)) eqn:Hpass.
    + match goal with
      | |- context [for_of tests _ (?vb, w1)] =>
          destruct (IH vb w1) as (v' & w' & rs & k & Hloop & Hres & Hlen & Hf & Hk & Hc & He);
          assert (Hvb : Totals.testResults vb = Totals.testResults v ++ [r])
            by (cbn; destruct (Js.truthy_num (Test.points t)); reflexivity)
      end.
      exists v', w', (r :: rs), (k1 + k). split; [exact Hloop|].
      split; [rewrite Hres, Hvb, <- app_assoc; reflexivity|].
      split; [cbn; lia|].
      split; [rewrite signals_cons, Hpass, Hf, Hfail; reflexivity|].
      split; [cbn; lia|].
      split; [lia|].
      rewrite He, Henv, Hcount, seq_app, map_app, rev_app_distr, <- app_assoc. reflexivity.
    + match goal with
      | |- context [for_of tests _ (?vb, ?wb)] =>
          destruct (IH vb wb) as (v' & w' & rs & k & Hloop & Hres & Hlen & Hf & Hk & Hc & He);
          assert (Hvb : Totals.testResults vb = Totals.testResults v ++ [r])
            by (cbn; destruct (Js.truthy_num (Test.points t)); reflexivity)
      end.
      exists v', w', (r :: rs), (k1 + k). split; [exact Hloop|].
      split; [rewrite Hres, Hvb, <- app_assoc; reflexivity|].
      split; [cbn; lia|].
      split.
      { rewrite signals_cons, Hpass, Hf, failures_signal, Hfail.
        cbn [rev app]. rewrite <- app_assoc. reflexivity. }
      split; [cbn; lia|].
      split; [cbn in Hc; lia|].
      rewrite He, feedback_envs_signal. cbn [uuids_drawn record].
      rewrite Henv, Hcount, seq_app, map_app, rev_app_distr, <- app_assoc. reflexivity.
Qed.

Lemma runAll_loop_effects host tests cwd w :
  exists v wl k,
    runAll_loop host tests cwd (Totals_init, w) = (Normal tt, (v, wl)) /\
    length (Totals.testResults v) = length tests /\
    failures wl = rev (signals tests (Totals.testResults v)) ++ failures w /\
    k <= length tests /\
    feedback_envs wl
    = rev (map (path_at host (feedback_dir host)) (seq (uuids_drawn w) k)) ++ feedback_envs w.
Proof.
  destruct (loop_effects host cwd (feedback_dir host) tests Totals_init
              (record (MkdirP (feedback_dir host)) w))
    as (v & wl & rs & k & Hloop & Hres & Hlen & Hf & Hk & _ & He).
  exists v, wl, k. cbn in Hres. subst rs.
  split; [exact Hloop|]. split; [exact Hlen|]. split; [exact Hf|]. split; [exact Hk|exact He].
Qed.

Lemma signals_nil_iff tests rs :
  length rs = length tests ->
  (signals tests rs = [] <-> Forall (fun r => TestResult.status r = pass) rs).
Proof.
  revert rs. induction tests as [|t tests IH]; intros [|r rs] Hlen; try discriminate Hlen.
  - split; [constructor|reflexivity].
  - injection Hlen as Hlen. rewrite signals_cons, Forall_cons, <- (IH rs Hlen).
    case_bool_decide; cbn; split; try tauto; try discriminate.
Qed.

(** X12: [runAll] sends one failure signal for each test that did not pass,
    in the order of the tests and with the name of the test, and no other;
    it sends none exactly when the suite status is [pass]. *)
Theorem failure_signals host tests cwd w :
  exists report w' earlier,
    runAll host tests cwd w = (Normal tt, w') /\
    trace w' = SetOutputResult report :: earlier /\
    failures w' = rev (signals tests (SuiteReport.tests report)) ++ failures w /\
    (signals tests (SuiteReport.tests report) = [] <-> SuiteReport.status report = pass).
Proof.
  destruct (runAll_loop_effects host tests cwd w) as (v & wl & k & Hloop & Hlen & Hf & _ & _).
  destruct (runAll_loop_spec host tests cwd w)
    as (v0 & wl0 & Hloop0 & _ & _ & _ & _ & Hst & _ & _).
  rewrite Hloop in Hloop0. injection Hloop0 as <- <-.
  do 3 eexists. split; [exact (runAll_eq host _ _ _ _ _ Hloop)|].
  split; [reflexivity|]. cbn [results_of SuiteReport.tests SuiteReport.status].
  split.
  - rewrite <- Hf. destruct (Totals.hasPoints v); reflexivity.
  - rewrite (signals_nil_iff _ _ Hlen). symmetry. exact Hst.
Qed.

(** X13: when some spec has non-zero points, [runAll] publishes the points
    summary once, right before the report: the points earned are the scores
    of the pointed tests added up, the points available are [max_score]. *)
Theorem points_summary host tests cwd w :
  Exists (fun t => exists P, Test.points t = Some P /\ P <> 0%Z) tests ->
  exists report w' wl,
    runAll host tests cwd w = (Normal tt, w') /\
    let earned_points := Zsum (zip_with earned tests (SuiteReport.tests report)) in
    trace w'
    = SetOutputResult report
      :: CheckRunOutput earned_points (SuiteReport.max_score report)
      :: SetOutputPoints earned_points (SuiteReport.max_score report)
      :: trace wl /\
    summaries wl = summaries w.
Proof.
  intros Hex.
  destruct (runAll_loop_spec host tests cwd w)
    as (v & wl & Hloop & _ & _ & Hacc & Hhas & _ & _ & Hsum).
  assert (Hany : Totals.hasPoints v = true).
  { rewrite Hhas. apply existsb_exists. apply Exists_exists in Hex as (t & Hin & P & HP & HP0).
    exists t. split; [now apply list_elem_of_In|]. rewrite HP. now apply truthy_num_nonzero. }
  exists (results_of v). eexists. exists wl.
  split; [exact (runAll_eq host _ _ _ _ _ Hloop)|].
  cbn zeta. rewrite Hany. cbn [results_of SuiteReport.tests SuiteReport.max_score].
  rewrite <- Hacc. split; [reflexivity|exact Hsum].
Qed.

Lemma runTest_score_cases host test cwd dir w res w' :
  runTest host test cwd dir w = (Normal res, w') ->
  (TestResult.score res = Js.num_or_null (Test.points test) \/
   TestResult.score res = zero_if_pointed test) /\
  (TestResult.status res = pass -> TestResult.score res = Js.num_or_null (Test.points test)).
Proof.
  intros Hrun. runTest_cases Hrun; result_simpl; split; auto; discriminate.
Qed.

Lemma earned_cases host cwd t r :
  produced host cwd t r ->
  (earned t r = 0%Z \/ earned t r = default 0%Z (Test.points t)) /\
  (TestResult.status r = pass -> earned t r = default 0%Z (Test.points t)).
Proof.
  intros (w & w' & Hrun).
  destruct (runTest_score_cases _ _ _ _ _ _ _ Hrun) as [Hcases Hpass].
  assert (Hfull : TestResult.score r = Js.num_or_null (Test.points t) ->
                  earned t r = default 0%Z (Test.points t)).
  { intros H. unfold earned. rewrite H. unfold Js.num_or_null, Js.num_or_zero.
    destruct (Test.points t) as [p|]; cbn; [|reflexivity].
    destruct (Z.eqb_spec p 0); cbn; [congruence|].
    destruct (Z.eqb_spec p 0); cbn; congruence. }
  split; [|auto].
  destruct Hcases as [H|H]; [right; auto|left].
  unfold earned, zero_if_pointed in *. rewrite H.
  destruct (Js.truthy_num (Test.points t)); reflexivity.
Qed.

(** X14: when no spec has negative points, the points earned lie between
    zero and the points available. *)
Theorem earned_within_available host tests cwd w :
  Forall (fun t => forall P, Test.points t = Some P -> (0 <= P)%Z) tests ->
  exists v wl,
    runAll_loop host tests cwd (Totals_init, w) = (Normal tt, (v, wl)) /\
    (0 <= Totals.accumulatedPoints v <= Totals.availablePoints v)%Z.
Proof.
  intros Hpos.
  destruct (runAll_loop_spec host tests cwd w)
    as (v & wl & Hloop & Hprod & Hav & Hacc & _).
  exists v, wl. split; [exact Hloop|]. rewrite Hacc, Hav.
  clear Hloop Hav Hacc. induction Hprod as [|t r tests rs Hp _ IH].
  - cbn. lia.
  - apply Forall_cons in Hpos as [Ht Hpos]. specialize (IH Hpos).
    rewrite Zsum_omap_cons.
    change (Zsum (zip_with earned (t :: tests) (r :: rs)))
      with (earned t r + Zsum (zip_with earned tests rs))%Z.
    assert (0 <= default 0 (Test.points t))%Z
      by (destruct (Test.points t) as [P|]; cbn; [apply Ht; reflexivity|lia]).
    destruct (earned_cases _ _ _ _ Hp) as [[-> | ->] _]; lia.
Qed.

(** X15: a suite whose status is [pass] earns every point available. *)
Theorem passing_suite_earns_all host tests cwd w :
  exists v wl,
    runAll_loop host tests cwd (Totals_init, w) = (Normal tt, (v, wl)) /\
    (Totals.status v = pass -> Totals.accumulatedPoints v = Totals.availablePoints v).
Proof.
  destruct (runAll_loop_spec host tests cwd w)
    as (v & wl & Hloop & Hprod & Hav & Hacc & _ & Hst & _).
  exists v, wl. split; [exact Hloop|]. intros Hpass. apply Hst in Hpass.
  rewrite Hacc, Hav. clear Hloop Hav Hacc Hst.
  induction Hprod as [|t r tests rs Hp _ IH]; [reflexivity|].
  apply Forall_cons in Hpass as [Hr Hpass].
  rewrite Zsum_omap_cons.
  change (Zsum (zip_with earned (t :: tests) (r :: rs)))
    with (earned t r + Zsum (zip_with earned tests rs))%Z.
  rewrite (IH Hpass). destruct (earned_cases _ _ _ _ Hp) as [_ ->]; [reflexivity|exact Hr].
Qed.

Lemma path_at_inj host dir m n :
  (forall i j, uuidv4 host i = uuidv4 host j -> i = j) ->
  path_at host dir m = path_at host dir n -> m = n.
Proof.
  intros Hinj H. unfold path_at, path_join in H.
  apply append_inv_head, append_inv_head, append_inv_head, append_inv_tail in H. auto.
Qed.

Lemma NoDup_map_inj {A B} (f : A -> B) l :
  (forall x y, f x = f y -> x = y) -> NoDup l -> NoDup (map f l).
Proof.
  intros Hinj. induction 1 as [|x l Hx _ IH]; cbn; constructor; [|exact IH].
  rewrite list_elem_of_In, in_map_iff. intros (y & Hy & Hin).
  apply Hinj in Hy as ->. apply Hx. now apply list_elem_of_In.
Qed.

(** X16: when [uuidv4] never repeats itself, no two tests of a suite are
    handed the same feedback path. *)
Theorem feedback_paths_distinct host tests cwd w :
  (forall i j, uuidv4 host i = uuidv4 host j -> i = j) ->
  exists paths,
    feedback_envs (snd (runAll host tests cwd w)) = paths ++ feedback_envs w /\
    NoDup paths /\
    length paths <= length tests.
Proof.
  intros Hinj.
  destruct (runAll_loop_effects host tests cwd w) as (v & wl & k & Hloop & _ & _ & Hk & He).
  rewrite (runAll_eq host _ _ _ _ _ Hloop). cbn [snd].
  exists (rev (map (path_at host (feedback_dir host)) (seq (uuids_drawn w) k))).
  split; [|split].
  - rewrite <- He. destruct (Totals.hasPoints v); reflexivity.
  - apply NoDup_ListNoDup, List.NoDup_rev, NoDup_ListNoDup, NoDup_map_inj;
      [intros x y; apply path_at_inj, Hinj|apply NoDup_seq].
  - rewrite length_rev, length_map, length_seq. exact Hk.
Qed.

(** ** The order of the steps and the verdict on a failed run *)





Lemma runTest_run_failed host test cwd dir w budget w1 msg w2 body res w' :
  after_setup host test cwd w = (Normal budget, w1) ->
  executeTest host (Test.run test) (Js.or_empty (Test.input test)) budget cwd
              (feedback_path host dir w1) (drawn host w1)
    = (Normal (Outcome.mk None (Some msg)), w2) ->
  msg <> "" ->
  files w2 !! feedback_path host dir w1 = Some body ->
  runTest host test cwd dir w = (Normal res, w') ->
  TestResult.status res = error /\
  TestResult.err_message res = Some msg /\
  TestResult.content res = Js.or_null (Some body).
Proof.
  intros Hsetup Hexec Hmsg Hfile Hrun.
  rewrite runTest_eq, runTest_try_eq, Hsetup in Hrun. cbn zeta in Hrun. unfold bind in Hrun.
  match type of Hrun with
  | context [run_step ?h ?t ?c ?pth (?v, ?w0)] =>
      rewrite (run_step_eq h t c pth v w0 _ _ Hexec) in Hrun
  end.
  cbn zeta in Hrun. cbn [Outcome.error] in Hrun.
  rewrite (proj2 (truthy_Some msg) Hmsg) in Hrun.
  rewrite feedback_step_eq, Hfile in Hrun. injection Hrun as <- _. auto.
Qed.

(** X18: a run command that fails after writing feedback gives status
    [error] with the feedback attached; the message is the timeout text when
    the command was killed on timeout, and the command's own message when
    that message does not mention [ETIMEDOUT]. *)
Theorem run_failure_verdict host test cwd dir w budget w1 res w' body :
  after_setup host test cwd w = (Normal budget, w1) ->
  let p := process host (run_call test cwd budget (feedback_path host dir w1)) (drawn host w1) in
  files_after p !! feedback_path host dir w1 = Some body ->
  runTest host test cwd dir w = (Normal res, w') ->
  (exit p = TimedOut ->
   TestResult.status res = error /\
   TestResult.err_message res = Some "Command was killed due to timeout" /\
   TestResult.content res = Js.or_null (Some body)) /\
  (forall msg,
     exit p = Failed msg -> msg <> "" -> Js.includes msg "ETIMEDOUT" = false ->
     TestResult.status res = error /\
     TestResult.err_message res = Some msg /\
     TestResult.content res = Js.or_null (Some body)).
Proof.
  intros Hsetup p Hfile Hrun.
  pose proof (executeTest_eq host (Test.run test) (Js.or_empty (Test.input test)) budget cwd
                (feedback_path host dir w1) (drawn host w1)) as Hexec.
  cbv zeta in Hexec. fold (run_call test cwd budget (feedback_path host dir w1)) in Hexec.
  fold p in Hexec.
  split.
  - intros Hexit. rewrite Hexit in Hexec.
    refine (runTest_run_failed _ _ _ _ _ _ _ _ _ _ _ _ Hsetup Hexec _ Hfile Hrun).
    discriminate.
  - intros msg Hexit Hmsg Hinc. rewrite Hexit in Hexec. cbn [exit_result message] in Hexec.
    rewrite Hinc in Hexec.
    exact (runTest_run_failed _ _ _ _ _ _ _ _ _ _ _ _ Hsetup Hexec Hmsg Hfile Hrun).
Qed.

(** ** The further properties on the scripted hosts *)


Example crash_run :
  fst (runTest Cases.host Cases.crash Demo.cwd Demo.feedbackDir Demo.world0)
  = Normal {| TestResult.name := "crashes"; TestResult.status := error;
              TestResult.err_message
                := Some "Command failed: echo ok > $AUTOGRADING_FEEDBACK; exit 1";
              TestResult.content := Some ("ok" +:+ Demo.LF);
              TestResult.test_code := "echo ok > $AUTOGRADING_FEEDBACK; exit 1 <stdin>";
              TestResult.filename := ""; TestResult.line_no := 0;
              TestResult.execution_time := Some 7%Z;
              TestResult.score := Some 0%Z |}.
Proof. vm_compute. reflexivity. Qed.

(** The setup command takes 3 ms, the run command 5 ms: 5 ms are reported. *)
Example slow_setup_run :
  match fst (runTest Demo.host Demo.slow_setup Demo.cwd Demo.feedbackDir Demo.world0) with
  | Normal res => TestResult.execution_time res
  | Throw _ => None
  end = Some 5%Z.
Proof. vm_compute. reflexivity. Qed.

(** X1 at [Demo.silent]. *)
Lemma err_message_null_iff_pass_witness :
  exists res w',
    runTest Demo.host Demo.silent Demo.cwd Demo.feedbackDir Demo.world0 = (Normal res, w') /\
    (TestResult.err_message res = None <-> TestResult.status res = pass).
Proof.
  destruct (runTest_returns Demo.host Demo.silent Demo.cwd Demo.feedbackDir Demo.world0)
    as (res & w' & Hrun).
  exists res, w'. split; [exact Hrun|].
  exact (err_message_null_iff_pass _ _ _ _ _ _ _ Hrun).
Defined.

(** X2 at [Demo.passing]: the status is [pass], so every stage went well. *)
Lemma pass_iff_witness :
  exists res w' r,
    runTest Demo.host Demo.passing Demo.cwd Demo.feedbackDir Demo.world0 = (Normal res, w') /\
    fst (executeTest Demo.host (Test.run Demo.passing) (Js.or_empty (Test.input Demo.passing))
           (Test.timeout Demo.passing * 60 * 1000)%Q Demo.cwd
           (feedback_path Demo.host Demo.feedbackDir Demo.world0)
           (drawn Demo.host Demo.world0)) = Normal r /\
    compareOutput Demo.host (Js.or_empty (Outcome.output r))
                  (Js.or_empty (Test.output Demo.passing)) (Test.comparison Demo.passing)
    = Normal true.
Proof.
  destruct (runTest_returns Demo.host Demo.passing Demo.cwd Demo.feedbackDir Demo.world0)
    as (res & w' & Hrun).
  assert (Hpass : TestResult.status res = pass).
  { pose proof passing_run as Hr. rewrite Hrun in Hr. injection Hr as ->. reflexivity. }
  apply (pass_iff _ _ _ _ _ _ _ Hrun) in Hpass
    as (budget & w1 & r & w2 & Hsetup & Hexec & _ & Hcmp & _).
  rewrite after_setup_absent in Hsetup by reflexivity. injection Hsetup as <- <-.
  exists res, w', r. split; [exact Hrun|]. split; [exact (f_equal fst Hexec)|exact Hcmp].
Defined.


(** X4 at [Demo.slow_setup]: the time recorded is that of the run command. *)
Lemma execution_time_measures_run_witness :
  exists res w',
    runTest Demo.host Demo.slow_setup Demo.cwd Demo.feedbackDir Demo.world0 = (Normal res, w') /\
    TestResult.execution_time res = Some 5%Z.
Proof.
  destruct (runTest_returns Demo.host Demo.slow_setup Demo.cwd Demo.feedbackDir Demo.world0)
    as (res & w' & Hrun).
  exists res, w'. split; [exact Hrun|].
  pose proof (execution_time_measures_run _ _ _ _ _ _ _ Hrun) as H.
  rewrite after_setup_run in H by discriminate.
  assert (Hexit : exit_result (exit (process Demo.host (setup_call Demo.slow_setup Demo.cwd)
                                             Demo.world0)) = Normal "")
    by (vm_compute; reflexivity).
  rewrite Hexit in H. rewrite H. vm_compute. reflexivity.
Defined.

(** X5 at [Cases.crash]: the run command fails after writing feedback, and
    the feedback is in the result. *)
Lemma content_iff_witness :
  exists res w',
    runTest Cases.host Cases.crash Demo.cwd Demo.feedbackDir Demo.world0 = (Normal res, w') /\
    TestResult.content res = Some ("ok" +:+ Demo.LF).
Proof.
  destruct (runTest_returns Cases.host Cases.crash Demo.cwd Demo.feedbackDir Demo.world0)
    as (res & w' & Hrun).
  exists res, w'. split; [exact Hrun|].
  apply (content_iff _ _ _ _ _ _ _ _ Hrun).
  pose proof (executeTest_eq Cases.host (Test.run Cases.crash)
                (Js.or_empty (Test.input Cases.crash))
                (Test.timeout Cases.crash * 60 * 1000)%Q Demo.cwd
                (feedback_path Cases.host Demo.feedbackDir Demo.world0)
                (drawn Cases.host Demo.world0)) as Hexec.
  cbv zeta in Hexec.
  do 4 eexists. split; [apply after_setup_absent; reflexivity|].
  split; [exact Hexec|]. split; [left; vm_compute; reflexivity|].
  split; [vm_compute; reflexivity|discriminate].
Defined.

(** X6 at [Demo.passing], with a file of the submission on disk. *)
Lemma other_files_untouched_witness :
  exists res w',
    runTest Demo.host Demo.passing Demo.cwd Demo.feedbackDir
            (mkWorld {[ "/home/runner/work/repo/main.py" := "print(1)" ]} 0 0 [])
    = (Normal res, w') /\
    files w' !! "/home/runner/work/repo/main.py" = Some "print(1)".
Proof.
  destruct (runTest_returns Demo.host Demo.passing Demo.cwd Demo.feedbackDir
              (mkWorld {[ "/home/runner/work/repo/main.py" := "print(1)" ]} 0 0 []))
    as (res & w' & Hrun).
  exists res, w'. split; [exact Hrun|].
  pose proof (other_files_untouched _ _ _ _ _ _ _ Hrun) as H.
  rewrite after_setup_absent in H by reflexivity.
  rewrite H by discriminate. vm_compute. reflexivity.
Defined.

(** X7 at [Demo.slow_setup]. *)
Lemma at_most_two_commands_witness :
  exists res w' later,
    runTest Demo.host Demo.slow_setup Demo.cwd Demo.feedbackDir Demo.world0 = (Normal res, w') /\
    trace w' = later ++ trace Demo.world0 /\
    length (List.filter is_spawn later) <= 2.
Proof.
  destruct (runTest_returns Demo.host Demo.slow_setup Demo.cwd Demo.feedbackDir Demo.world0)
    as (res & w' & Hrun).
  destruct (at_most_two_commands _ _ _ _ _ _ _ Hrun) as (later & Htrace & Hcount & _).
  exists res, w', later. auto.
Defined.

(** X8 at [Cases.crash]: an expected output that is no regular expression
    makes no difference when the run command fails. *)
Lemma run_failure_ignores_expectation_witness :
  runTest Cases.host (expecting (Some "(") "regex" Cases.crash) Demo.cwd Demo.feedbackDir
          Demo.world0
  = runTest Cases.host Cases.crash Demo.cwd Demo.feedbackDir Demo.world0.
Proof.
  pose proof (executeTest_eq Cases.host (Test.run Cases.crash)
                (Js.or_empty (Test.input Cases.crash))
                (Test.timeout Cases.crash * 60 * 1000)%Q Demo.cwd
                (feedback_path Cases.host Demo.feedbackDir Demo.world0)
                (drawn Cases.host Demo.world0)) as Hexec.
  cbv zeta in Hexec.
  apply (run_failure_ignores_expectation _ _ _ _ _ _ _ _ _ _ _
           (after_setup_absent Cases.host Cases.crash Demo.cwd Demo.world0 eq_refl) Hexec).
  vm_compute. reflexivity.
Defined.


(** X10 on three strings that include one another in turn. *)
Lemma included_between_witness :
  compareOutput Demo.host "hello world" "or" "included" = Normal true /\
  compareOutput Demo.host "hi" "hi" "included" = Normal true.
Proof.
  split.
  - destruct (included_between Demo.host "hello world" "world" "or") as (_ & _ & _ & H & _).
    apply H; reflexivity.
  - destruct (included_between Demo.host "hi" "hi" "") as (H & _).
    apply H. reflexivity.
Defined.

(** X11 on a short text. *)
Lemma btoa_reversible_witness :
  atob (btoa "hi") = Some "hi" /\ String.length (btoa "hi") = 4.
Proof.
  destruct (btoa_reversible "hi" "hi") as (Hback & _ & Hlen & _).
  split; [exact Hback | exact Hlen].
Defined.

(** X12 on a suite whose second test does not pass. *)
Lemma failure_signals_witness :
  exists report w' earlier,
    runAll Demo.host [Demo.passing; Demo.silent] Demo.cwd Demo.world0 = (Normal tt, w') /\
    trace w' = SetOutputResult report :: earlier /\
    failures w'
    = rev (signals [Demo.passing; Demo.silent] (SuiteReport.tests report))
      ++ failures Demo.world0.
Proof.
  destruct (failure_signals Demo.host [Demo.passing; Demo.silent] Demo.cwd Demo.world0)
    as (report & w' & earlier & Hrun & Htrace & Hf & _).
  exists report, w', earlier. auto.
Defined.

(** X13 on a suite with one pointed test. *)
Lemma points_summary_witness :
  exists report w' wl,
    runAll Demo.host [Demo.passing] Demo.cwd Demo.world0 = (Normal tt, w') /\
    trace w'
    = SetOutputResult report
      :: CheckRunOutput (Zsum (zip_with earned [Demo.passing] (SuiteReport.tests report)))
                        (SuiteReport.max_score report)
      :: SetOutputPoints (Zsum (zip_with earned [Demo.passing] (SuiteReport.tests report)))
                         (SuiteReport.max_score report)
      :: trace wl.
Proof.
  destruct (points_summary Demo.host [Demo.passing] Demo.cwd Demo.world0)
    as (report & w' & wl & Hrun & Htrace & _).
  { apply Exists_cons_hd. exists 10%Z. split; [reflexivity|discriminate]. }
  exists report, w', wl. auto.
Defined.

(** X14 on a suite with a pointed and an unpointed test. *)
Lemma earned_within_available_witness :
  exists v wl,
    runAll_loop Demo.host [Demo.passing; Demo.unpointed] Demo.cwd (Totals_init, Demo.world0)
    = (Normal tt, (v, wl)) /\
    (0 <= Totals.accumulatedPoints v <= Totals.availablePoints v)%Z.
Proof.
  apply earned_within_available.
  repeat (apply Forall_cons_2; [intros P HP; try discriminate HP; injection HP as <-; lia|]).
  apply Forall_nil_2.
Defined.

Example passing_suite_status :
  match runAll_loop Demo.host [Demo.passing] Demo.cwd (Totals_init, Demo.world0) with
  | (_, (v, _)) => Totals.status v
  end = pass.
Proof. vm_compute. reflexivity. Qed.

(** X15 on a suite that passes. *)
Lemma passing_suite_earns_all_witness :
  exists v wl,
    runAll_loop Demo.host [Demo.passing] Demo.cwd (Totals_init, Demo.world0)
    = (Normal tt, (v, wl)) /\
    Totals.accumulatedPoints v = Totals.availablePoints v.
Proof.
  destruct (passing_suite_earns_all Demo.host [Demo.passing] Demo.cwd Demo.world0)
    as (v & wl & Hloop & H).
  exists v, wl. split; [exact Hloop|]. apply H.
  pose proof passing_suite_status as Hst. rewrite Hloop in Hst. exact Hst.
Defined.

Lemma Demo_uuidv4_inj i j : uuidv4 Demo.host i = uuidv4 Demo.host j -> i = j.
Proof.
  cbn [uuidv4 Demo.host]. intros H. apply append_inv_head in H.
  exact (pretty_nat_inj _ _ H).
Qed.

(** X16 on the scripted uuid generator, which counts. *)
Lemma feedback_paths_distinct_witness :
  exists paths,
    feedback_envs (snd (runAll Demo.host [Demo.passing; Demo.silent] Demo.cwd Demo.world0))
    = paths ++ feedback_envs Demo.world0 /\
    NoDup paths /\
    length paths <= 2.
Proof.
  apply (feedback_paths_distinct Demo.host [Demo.passing; Demo.silent]).
  exact Demo_uuidv4_inj.
Defined.

Example steps_of_a_suite :
  steps (snd (runAll Demo.host [Demo.broken_setup; Demo.slow_setup] Demo.cwd Demo.world0))
  = [inl "echo hi; echo ok > $AUTOGRADING_FEEDBACK"; inl "true"; inl "exit 1";
     inr "/home/runner/work/_temp/_autograding_feedback"].
Proof. vm_compute. reflexivity. Qed.


(** X18 at [Cases.hang] and [Cases.crash]. *)
Lemma run_failure_verdict_witness :
  (exists res w',
     runTest Cases.host Cases.hang Demo.cwd Demo.feedbackDir Demo.world0 = (Normal res, w') /\
     TestResult.status res = error /\
     TestResult.err_message res = Some "Command was killed due to timeout" /\
     TestResult.content res = Some ("ok" +:+ Demo.LF)) /\
  (exists res w',
     runTest Cases.host Cases.crash Demo.cwd Demo.feedbackDir Demo.world0 = (Normal res, w') /\
     TestResult.status res = error /\
     TestResult.err_message res
     = Some "Command failed: echo ok > $AUTOGRADING_FEEDBACK; exit 1" /\
     TestResult.content res = Some ("ok" +:+ Demo.LF)).
Proof.
  split.
  - destruct (runTest_returns Cases.host Cases.hang Demo.cwd Demo.feedbackDir Demo.world0)
      as (res & w' & Hrun).
    exists res, w'. split; [exact Hrun|].
    refine (proj1 (run_failure_verdict Cases.host Cases.hang Demo.cwd Demo.feedbackDir
                     Demo.world0 _ _ res w' ("ok" +:+ Demo.LF)
                     (after_setup_absent Cases.host Cases.hang Demo.cwd Demo.world0 eq_refl)
                     _ Hrun) _);
      vm_compute; reflexivity.
  - destruct (runTest_returns Cases.host Cases.crash Demo.cwd Demo.feedbackDir Demo.world0)
      as (res & w' & Hrun).
    exists res, w'. split; [exact Hrun|].
    refine (proj2 (run_failure_verdict Cases.host Cases.crash Demo.cwd Demo.feedbackDir
                     Demo.world0 _ _ res w' ("ok" +:+ Demo.LF)
                     (after_setup_absent Cases.host Cases.crash Demo.cwd Demo.world0 eq_refl)
                     _ Hrun) _ _ _ _);
      first [ discriminate | vm_compute; reflexivity ].
Defined.
